(** * ChatClient: configuration resolution and conversation state

    A shallow embedding of [ChatClient.py].  The Python class keeps four
    attributes ([config], [conversation_history], [selected_model],
    [client]); its methods mutate them, print to standard output, raise
    exceptions and talk to three external collaborators: the file system
    plus [json.load], the process environment, and the OpenAI HTTP client.
    The collaborators are taken as parameters ([Externals]); everything the
    class itself does is written out as a state-and-exception monad over
    [World]. *)

From Stdlib Require Import ZArith List String Bool Lia DecimalString.
Import ListNotations.
Open Scope string_scope.
Set Warnings "-register-all".

(** ** Python values that cross the interface *)

(** A Python [float], as far as the code looks at it (truthiness only). *)
Inductive pyfloat :=
| FNan
| FInf (negative : bool)
| FFinite (mantissa exponent : Z).

(** The values [json.load] / [json.loads] produce.  [PyNone] is also what a
    bare [return] hands back. *)
Inductive pyval :=
| PyNone
| PyBool (b : bool)
| PyInt (z : Z)
| PyFloat (f : pyfloat)
| PyStr (s : string)
| PyList (items : list pyval)
| PyDict (entries : list (string * pyval)).

(** [bool(v)]: what [if not v] tests. *)
Definition truthy (v : pyval) : bool :=
  match v with
  | PyNone => false
  | PyBool b => b
  | PyInt z => negb (Z.eqb z 0)
  | PyFloat (FFinite m _) => negb (Z.eqb m 0)
  | PyFloat _ => true
  | PyStr s => negb (String.eqb s "")
  | PyList l => match l with [] => false | _ => true end
  | PyDict d => match d with [] => false | _ => true end
  end.

Inductive Exn :=
| ValueError (msg : string)
| AttributeError (msg : string)
| IndexError (msg : string)
| TypeError (msg : string)
| JSONDecodeError (msg : string)
| FileNotFoundError (msg : string)
| APIError (msg : string)        (* what the OpenAI client raises *)
| OtherError (msg : string)      (* any other subclass of Exception *)
| StopIteration
| SystemExit (code : Z).         (* BaseException, raised by exit() *)

(** [str(e)] *)
Definition str_exn (e : Exn) : string :=
  match e with
  | ValueError m | AttributeError m | IndexError m | TypeError m
  | JSONDecodeError m | FileNotFoundError m | APIError m | OtherError m => m
  | StopIteration => ""
  | SystemExit c => NilZero.string_of_int (Z.to_int c)
  end.

(** [isinstance(e, Exception)]: what [except Exception] catches. *)
Definition is_Exception (e : Exn) : bool :=
  match e with SystemExit _ => false | _ => true end.

Definition is_JSONDecodeError (e : Exn) : bool :=
  match e with JSONDecodeError _ => true | _ => false end.

Definition is_FileNotFoundError (e : Exn) : bool :=
  match e with FileNotFoundError _ => true | _ => false end.

Inductive Outcome (A : Type) :=
| Return (a : A)
| Raise (e : Exn).
Arguments Return {A} a.
Arguments Raise {A} e.

(** What a request to the backend comes to: an answer, or a failure the
    HTTP client reports as an [APIError] with this message. *)
Inductive Answer (A : Type) :=
| Ok (a : A)
| Failed (msg : string).
Arguments Ok {A} a.
Arguments Failed {A} msg.

(** ** The data model *)

Module ModelConfig.
(** [@dataclass class ModelConfig].  [url] and [api_key] hold whatever
    the configuration document held. *)
Record t := mk {
  name : string;
  id : Z;
  server : string;
  url : pyval;
  api_key : pyval
}.
End ModelConfig.

(** One transcript entry, [{"role": r, "content": c}]; the content of an
    assistant entry is whatever the backend sent, [None] included. *)
Record Message := mkMessage {
  role : string;
  content : option string
}.

(** The object [OpenAI(api_key=.., base_url=..)] returns: it records its
    arguments.  The constructor contacts no server, but it can refuse its
    arguments (see [constructor_fault] below). *)
Record Client := OpenAI {
  client_api_key : pyval;
  client_base_url : pyval
}.

(** One entry of [client.models.list()]. *)
Record RemoteModel := mkRemote {
  remote_id : string;
  owned_by : string
}.

(** What iterating [client.models.list()] gives: the models it yields and,
    when [list_fault] is [Some msg], the failure that ends the iteration
    (of the constructor, the request or a later page). *)
Record Listing := mkListing {
  listed : list RemoteModel;
  list_fault : option string
}.

(** One element of a streaming response: a chunk with the [delta.content]
    of each of its choices, or an exception raised while fetching it. *)
Inductive StreamEvent :=
| EvChunk (choices : list (option string))
| EvFault (msg : string).

(** A request and the answer it got. *)
Inductive Exchange :=
| XModels (api_key base_url : pyval) (answer : Listing)
| XCreate (c : Client) (model : string) (messages : list Message)
          (json_object : bool) (answer : Answer (list (option string)))
| XStream (c : Client) (model : string) (messages : list Message)
          (answer : Answer (list StreamEvent)).

(** The attributes of one [ChatClient] instance. *)
Record Self := mkSelf {
  config : list (Z * ModelConfig.t);       (* Dict[int, ModelConfig], insertion order *)
  conversation_history : list Message;
  selected_model : option ModelConfig.t;
  client : option Client
}.

Record World := mkWorld {
  self : Self;
  stdout : list string;                    (* lines printed so far *)
  wire : list Exchange                     (* backend traffic so far, oldest first *)
}.

(** The collaborators.  [read_json path] is what
    [with open(path) as f: json.load(f)] comes to.
    [constructor_fault api_key base_url] is the exception
    [OpenAI(api_key=api_key, base_url=base_url)] raises, [None] when it
    returns the client (it raises, for one, on a URL it cannot parse);
    inside a discovery call a refusal is part of the listing's fault, and
    [set_model_by_id] builds its client from a table entry, whose key and
    URL a discovery call's constructor accepted.  The backend may answer
    differently each time, so its three entry points see the traffic so
    far.  [completions_create] answers with the [message.content] of each
    choice of the completion. *)
Record Externals := mkExternals {
  read_json : string -> Outcome pyval;
  getenv : string -> option string;
  json_loads : string -> Outcome pyval;
  constructor_fault : pyval -> pyval -> option Exn;
  models_list : list Exchange -> pyval -> pyval -> Listing;
  completions_create :
    list Exchange -> Client -> string -> list Message -> bool ->
    Answer (list (option string));
  completions_stream :
    list Exchange -> Client -> string -> list Message ->
    Answer (list StreamEvent)
}.

(** ** The monad *)

Definition M (A : Type) := World -> Outcome A * World.

Definition ret {A} (a : A) : M A := fun w => (Return a, w).
Definition raise {A} (e : Exn) : M A := fun w => (Raise e, w).
Definition bind {A B} (m : M A) (k : A -> M B) : M B :=
  fun w => match m w with
           | (Return a, w') => k a w'
           | (Raise e, w') => (Raise e, w')
           end.

Notation "x <- m ;; k" := (bind m (fun x => k))
  (at level 61, m at next level, right associativity).
Notation "m ;;; k" := (bind m (fun _ => k))
  (at level 61, right associativity).

(** [try: body except C1 as e: h1(e) except C2 as e: h2(e) ...]: the
    first clause that matches handles the exception; what a handler raises
    is not offered to the other clauses. *)
Fixpoint dispatch {A} (clauses : list ((Exn -> bool) * (Exn -> M A)))
    (e : Exn) : M A :=
  match clauses with
  | [] => raise e
  | (catches, handler) :: others =>
      if catches e then handler e else dispatch others e
  end.

Definition try_except {A} (body : M A)
    (clauses : list ((Exn -> bool) * (Exn -> M A))) : M A :=
  fun w => match body w with
           | (Raise e, w') => dispatch clauses e w'
           | r => r
           end.

(** [for x in l: body(x)] *)
Fixpoint for_each {A} (l : list A) (body : A -> M unit) : M unit :=
  match l with
  | [] => ret tt
  | x :: rest => body x ;;; for_each rest body
  end.

Definition get_self : M Self := fun w => (Return (self w), w).
Definition modify_self (f : Self -> Self) : M unit :=
  fun w => (Return tt, mkWorld (f (self w)) (stdout w) (wire w)).
Definition print (line : string) : M unit :=
  fun w => (Return tt, mkWorld (self w) (stdout w ++ [line]) (wire w)).
Definition record (x : Exchange) : M unit :=
  fun w => (Return tt, mkWorld (self w) (stdout w) (wire w ++ [x])).
Definition get_wire : M (list Exchange) := fun w => (Return (wire w), w).

(** [exit(1)] *)
Definition exit {A} (code : Z) : M A := raise (SystemExit code).

Definition set_config (c : list (Z * ModelConfig.t)) (s : Self) : Self :=
  mkSelf c (conversation_history s) (selected_model s) (client s).
Definition set_history (h : list Message) (s : Self) : Self :=
  mkSelf (config s) h (selected_model s) (client s).
Definition set_selected (m : option ModelConfig.t) (s : Self) : Self :=
  mkSelf (config s) (conversation_history s) m (client s).
Definition set_client (c : option Client) (s : Self) : Self :=
  mkSelf (config s) (conversation_history s) (selected_model s) c.

(** ** Python dictionaries *)

(** [d[k] = v] on an insertion-ordered dict: an existing key keeps its
    place and takes the new value, a new key goes to the end. *)
Fixpoint dict_set {V} (k : Z) (v : V) (d : list (Z * V)) : list (Z * V) :=
  match d with
  | [] => [(k, v)]
  | (k', v') :: rest =>
      if Z.eqb k k' then (k, v) :: rest else (k', v') :: dict_set k v rest
  end.

Fixpoint dict_lookup {V} (k : Z) (d : list (Z * V)) : option V :=
  match d with
  | [] => None
  | (k', v) :: rest => if Z.eqb k k' then Some v else dict_lookup k rest
  end.

Definition dict_values {V} (d : list (Z * V)) : list V := map snd d.
Definition dict_keys {V} (d : list (Z * V)) : list Z := map fst d.

(** [len(d)] *)
Definition len {A} (l : list A) : Z := Z.of_nat (List.length l).

(** [v.get(key, default)] for a value read from JSON; anything but a dict
    has no [get]. *)
Fixpoint entries_get (key : string) (d : list (string * pyval)) : option pyval :=
  match d with
  | [] => None
  | (k, v) :: rest => if String.eqb key k then Some v else entries_get key rest
  end.

(** [type(v).__name__] *)
Definition type_name (v : pyval) : string :=
  match v with
  | PyNone => "NoneType"
  | PyBool _ => "bool"
  | PyInt _ => "int"
  | PyFloat _ => "float"
  | PyStr _ => "str"
  | PyList _ => "list"
  | PyDict _ => "dict"
  end.

Definition no_attribute (v : pyval) (attribute : string) : Exn :=
  AttributeError ("'" ++ type_name v ++ "' object has no attribute '"
                  ++ attribute ++ "'").

Definition py_get (v : pyval) (key : string) (default : pyval) : M pyval :=
  match v with
  | PyDict d => ret (match entries_get key d with Some x => x | None => default end)
  | _ => raise (no_attribute v "get")
  end.

(** [v.items()] *)
Definition py_items (v : pyval) : M (list (string * pyval)) :=
  match v with
  | PyDict d => ret d
  | _ => raise (no_attribute v "items")
  end.

(** ** The methods of [ChatClient] *)

(** The argument of [set_model_by_id]: an identifier or a name. *)
Inductive Identifier :=
| ById (n : Z)
| ByName (s : string).

(** [f"{model_identifier}"] *)
Definition str_identifier (i : Identifier) : string :=
  match i with
  | ById n => NilZero.string_of_int (Z.to_int n)
  | ByName s => s
  end.

(** [model_identifier in (model.id, model.name)] *)
Definition identifies (i : Identifier) (model : ModelConfig.t) : bool :=
  match i with
  | ById n => Z.eqb n (ModelConfig.id model)
  | ByName s => String.eqb s (ModelConfig.name model)
  end.

(** [{"role": "user", "content": message}] and its siblings. *)
Definition user (message : string) : Message := mkMessage "user" (Some message).
Definition assistant (reply : option string) : Message := mkMessage "assistant" reply.

(** [self.conversation_history.append(m)] *)
Definition history_append (m : Message) : M unit :=
  modify_self (fun s => set_history (conversation_history s ++ [m]) s).

(** [choices[0]] *)
Definition first_choice (choices : list (option string)) : M (option string) :=
  match choices with
  | c :: _ => ret c
  | [] => raise (IndexError "list index out of range")
  end.

(** An [Optional[str]] as a [pyval]. *)
Definition py_of_optional (o : option string) : pyval :=
  match o with
  | Some s => PyStr s
  | None => PyNone
  end.

Section Methods.

Variable E : Externals.

(** The body of the loop of [_load_models_from_api]. *)
Definition add_model (api_key base_url : pyval) (model : RemoteModel) : M unit :=
  modify_self (fun s =>
    let model_config :=
      ModelConfig.mk (remote_id model) (len (config s) + 1) (owned_by model)
                     base_url api_key in
    set_config (dict_set (ModelConfig.id model_config) model_config (config s)) s).

Definition _load_models_from_api (api_key base_url : pyval) : M unit :=
  seen <- get_wire ;;
  let answer := models_list E seen api_key base_url in
  record (XModels api_key base_url answer) ;;;
  for_each (listed answer) (add_model api_key base_url) ;;;
  match list_fault answer with
  | Some msg => raise (APIError msg)
  | None => ret tt
  end.

(** [self.config_path]: no code of the class sets this attribute. *)
Definition self_config_path : M string :=
  raise (AttributeError "'ChatClient' object has no attribute 'config_path'").

(** The body of the loop of [_load_config_from_file]. *)
Definition load_server (item : string * pyval) : M unit :=
  let '(server_name, server_data) := item in
  api_key <- py_get server_data "api_key" (PyStr "") ;;
  api_url <- py_get server_data "api_url" (PyStr "") ;;
  _load_models_from_api api_key api_url.

Definition _load_config_from_file (config_path : string) : M unit :=
  config <- try_except
    (fun w => (read_json E config_path, w))
    [ (is_FileNotFoundError, fun _ =>
         p <- self_config_path ;;
         print ("错误：配置文件 " ++ p ++ " 未找到") ;;;
         exit 1%Z);
      (is_JSONDecodeError, fun _ =>
         print "错误：配置文件格式不正确" ;;;
         exit 1%Z) ] ;;
  server_configs <- py_get config "servers" (PyDict []) ;;
  (if negb (truthy server_configs)
   then print "错误：配置文件中未定义任何服务端" ;;; exit 1%Z
   else ret tt) ;;;
  items <- py_items server_configs ;;
  for_each items load_server.

(** [OpenAI(api_key=api_key, base_url=base_url)], where what it returns is
    assigned to an attribute. *)
Definition new_client (api_key base_url : pyval) : M Client :=
  match constructor_fault E api_key base_url with
  | Some e => raise e
  | None => ret (OpenAI api_key base_url)
  end.

Definition _load_config_from_env : M unit :=
  let api_key := py_of_optional (getenv E "API_KEY") in
  let base_url := py_of_optional (getenv E "BASE_URL") in
  (if negb (truthy api_key) || negb (truthy base_url)
   then print "错误：环境变量中未设置 API_KEY 或 BASE_URL" ;;; exit 1%Z
   else ret tt) ;;;
  c <- new_client api_key base_url ;;
  modify_self (set_client (Some c)) ;;;
  _load_models_from_api api_key base_url.

Definition get_available_models : M (list (string * Z * string)) :=
  s <- get_self ;;
  ret (map (fun model => (ModelConfig.name model, ModelConfig.id model,
                          ModelConfig.server model))
           (dict_values (config s))).

(** The loop of [set_model_by_id] over what is left of
    [self.config.values()], and the [raise] after it. *)
Fixpoint scan_models (model_identifier : Identifier)
    (models : list ModelConfig.t) : M unit :=
  match models with
  | [] =>
      raise (ValueError ("Model " ++ str_identifier model_identifier
                         ++ " not found in config"))
  | model :: rest =>
      if identifies model_identifier model then
        modify_self (set_selected (Some model)) ;;;
        modify_self (set_client
          (Some (OpenAI (ModelConfig.api_key model) (ModelConfig.url model))))
      else scan_models model_identifier rest
  end.

Definition set_model_by_id (model_identifier : Identifier) : M unit :=
  s <- get_self ;;
  scan_models model_identifier (dict_values (config s)).

Definition get_selected_model : M (option ModelConfig.t) :=
  s <- get_self ;; ret (selected_model s).

(** [ChatClient(config_path)] *)
Definition __init__ (config_path : option string) : M unit :=
  modify_self (fun _ => mkSelf [] [] None None) ;;;
  (if truthy (py_of_optional config_path)
   then _load_config_from_file (match config_path with Some p => p | None => "" end)
   else _load_config_from_env) ;;;
  s <- get_self ;;
  match config s with
  | [] => ret tt
  | _ => set_model_by_id (ById 1)
  end.

(** [self.client.chat.completions.create(model=self.selected_model.name,
    messages=self.conversation_history, stream=False, ...)] *)
Definition create_completion (json_object : bool) : M (list (option string)) :=
  s <- get_self ;;
  match client s, selected_model s with
  | None, _ => raise (AttributeError "'NoneType' object has no attribute 'chat'")
  | Some _, None => raise (AttributeError "'NoneType' object has no attribute 'name'")
  | Some c, Some model =>
      seen <- get_wire ;;
      let answer := completions_create E seen c (ModelConfig.name model)
                      (conversation_history s) json_object in
      record (XCreate c (ModelConfig.name model) (conversation_history s)
                      json_object answer) ;;;
      match answer with
      | Ok choices => ret choices
      | Failed msg => raise (APIError msg)
      end
  end.

(** The same call with [stream=True]. *)
Definition create_stream : M (list StreamEvent) :=
  s <- get_self ;;
  match client s, selected_model s with
  | None, _ => raise (AttributeError "'NoneType' object has no attribute 'chat'")
  | Some _, None => raise (AttributeError "'NoneType' object has no attribute 'name'")
  | Some c, Some model =>
      seen <- get_wire ;;
      let answer := completions_stream E seen c (ModelConfig.name model)
                      (conversation_history s) in
      record (XStream c (ModelConfig.name model) (conversation_history s)
                      answer) ;;;
      match answer with
      | Ok events => ret events
      | Failed msg => raise (APIError msg)
      end
  end.

Definition chat (message : string) : M (option string) :=
  s <- get_self ;;
  match selected_model s with
  | None => raise (ValueError "No model selected")
  | Some _ =>
      history_append (user message) ;;;
      try_except
        (response <- create_completion false ;;
         reply_content <- first_choice response ;;
         history_append (assistant reply_content) ;;;
         ret reply_content)
        [ (is_Exception, fun e =>
             print ("API 请求失败：" ++ str_exn e) ;;;
             ret None) ]
  end.

(** [json.loads(reply_content)] *)
Definition loads (reply_content : option string) : M pyval :=
  match reply_content with
  | Some text => fun w => (json_loads E text, w)
  | None =>
      raise (TypeError
        "the JSON object must be str, bytes or bytearray, not NoneType")
  end.

Definition json_chat (message : string) : M pyval :=
  s <- get_self ;;
  match selected_model s with
  | None => raise (ValueError "No model selected")
  | Some _ =>
      history_append (user message) ;;;
      try_except
        (response <- create_completion true ;;
         reply_content <- first_choice response ;;
         history_append (assistant reply_content) ;;;
         loads reply_content)
        [ (is_JSONDecodeError, fun _ =>
             print "错误：模型返回的内容无法解析为JSON" ;;;
             ret (PyDict []));
          (is_Exception, fun e =>
             print ("API 请求失败：" ++ str_exn e) ;;;
             ret PyNone) ]
  end.

(** *** [stream_chat], a generator function

    Calling a generator function runs none of its body: it returns a
    generator object that holds the arguments.  Each [next] runs the body
    up to the next [yield]; the body reads and writes the same instance
    ([self]) as every other method. *)

Inductive Generator :=
| GenCreated (message : string)            (* body not started *)
| GenSuspended (rest : list StreamEvent)   (* at the [yield]; [rest] is what
                                              [response_stream] has left *)
| GenClosed.                               (* returned or raised *)

Definition stream_chat (message : string) : M Generator :=
  ret (GenCreated message).

(** One turn of [for response_chunk in response_stream], up to the
    [yield]: [Some (fragment, rest)] when a fragment is yielded, [None]
    when the loop is over. *)
Definition stream_loop (response_stream : list StreamEvent)
  : M (option (option string * list StreamEvent)) :=
  match response_stream with
  | [] => ret None
  | EvFault msg :: _ => raise (APIError msg)
  | EvChunk choices :: rest =>
      fragment <- first_choice choices ;;
      ret (Some (fragment, rest))
  end.

(** The [try] statement of [stream_chat] around code that runs up to the
    next [yield] or to the end. *)
Definition in_stream_try (code : M (option (option string * list StreamEvent)))
  : M (option (option string * list StreamEvent)) :=
  try_except code
    [ (is_Exception, fun e =>
         print ("API 请求失败：" ++ str_exn e) ;;;
         ret None) ].

(** The body from its first line to the first [yield] (or to its end). *)
Definition stream_chat_start (message : string)
  : M (option (option string * list StreamEvent)) :=
  s <- get_self ;;
  match selected_model s with
  | None => raise (ValueError "No model selected")
  | Some _ =>
      history_append (user message) ;;;
      in_stream_try (response_stream <- create_stream ;;
                     stream_loop response_stream)
  end.

(** The body from a [yield] to the next one (or to its end). *)
Definition stream_chat_resume (rest : list StreamEvent)
  : M (option (option string * list StreamEvent)) :=
  in_stream_try (stream_loop rest).

(** What the caller of [next] sees, and the generator left behind. *)
Definition suspend (r : Outcome (option (option string * list StreamEvent)))
  : Outcome (option string) * Generator :=
  match r with
  | Return (Some (fragment, rest)) => (Return fragment, GenSuspended rest)
  | Return None => (Raise StopIteration, GenClosed)
  | Raise e => (Raise e, GenClosed)
  end.

(** [next(g)] *)
Definition next (g : Generator) (w : World)
  : Outcome (option string) * Generator * World :=
  match g with
  | GenCreated message =>
      let (r, w') := stream_chat_start message w in (suspend r, w')
  | GenSuspended rest =>
      let (r, w') := stream_chat_resume rest w in (suspend r, w')
  | GenClosed => (Raise StopIteration, GenClosed, w)
  end.

(** [for chunk in g: out.append(chunk)]: the fragments received, the
    exception that ended the loop if one did, and the world afterwards;
    [None] when [fuel] calls of [next] did not exhaust the generator. *)
Fixpoint drain (fuel : nat) (g : Generator) (w : World)
  : option (list (option string) * option Exn * World) :=
  match fuel with
  | O => None
  | S fuel' =>
      match next g w with
      | (Return fragment, g', w') =>
          match drain fuel' g' w' with
          | Some (fragments, ending, w'') => Some (fragment :: fragments, ending, w'')
          | None => None
          end
      | (Raise StopIteration, _, w') => Some ([], None, w')
      | (Raise e, _, w') => Some ([], Some e, w')
      end
  end.

Definition chat_cleanup : M unit :=
  modify_self (set_history []).

Definition get_history : M (list Message) :=
  s <- get_self ;; ret (conversation_history s).

Definition append_history (role : string) (content : string) : M unit :=
  history_append (mkMessage role (Some content)).

Definition set_system_prompt (content : string) : M unit :=
  history_append (mkMessage "system" (Some content)).

End Methods.

(** * Vocabulary of the properties *)

Open Scope list_scope.

(** The descriptor [_load_models_from_api] builds for a listed model when
    the table holds [i - 1] entries. *)
Definition descriptor (i : Z) (found : pyval * pyval * RemoteModel) : ModelConfig.t :=
  let '(api_key, base_url, model) := found in
  ModelConfig.mk (remote_id model) i (owned_by model) base_url api_key.

(** Identifiers [start], [start + 1], ... handed out in order. *)
Fixpoint enumerate (start : Z) (found : list (pyval * pyval * RemoteModel))
  : list (Z * ModelConfig.t) :=
  match found with
  | [] => []
  | f :: rest => (start, descriptor start f) :: enumerate (start + 1) rest
  end.

(** The models a stretch of traffic returned, in query order then listing
    order, each with the server it came from. *)
Definition returned (x : Exchange) : list (pyval * pyval * RemoteModel) :=
  match x with
  | XModels api_key base_url answer =>
      map (fun model => (api_key, base_url, model)) (listed answer)
  | _ => []
  end.

Definition discovered (traffic : list Exchange) : list (pyval * pyval * RemoteModel) :=
  flat_map returned traffic.

(** The servers a stretch of traffic asked for their models. *)
Definition queried (traffic : list Exchange) : list (pyval * pyval) :=
  flat_map (fun x => match x with
                     | XModels api_key base_url _ => [(api_key, base_url)]
                     | _ => []
                     end) traffic.

(** The keys are [1 .. N]. *)
Definition contiguous (table : list (Z * ModelConfig.t)) : Prop :=
  dict_keys table = map Z.of_nat (seq 1 (List.length table)).

(** The world after the table grew by [found], nothing else touched. *)
Definition with_found (found : list (pyval * pyval * RemoteModel)) (w : World) : World :=
  mkWorld
    (set_config (config (self w) ++ enumerate (len (config (self w)) + 1) found)
                (self w))
    (stdout w) (wire w).

(** A computation is [additive] when all it does to the table is append
    what its own discovery traffic returned, under the next identifiers. *)
Definition additive {A} (m : M A) : Prop :=
  forall w, contiguous (config (self w)) ->
    exists traffic,
      wire (snd (m w)) = wire w ++ traffic /\
      config (self (snd (m w)))
      = config (self w)
        ++ enumerate (len (config (self w)) + 1) (discovered traffic).

(** The ways to run resolution on an instance. *)
Inductive Resolution :=
| FromFile (config_path : string)
| FromEnv
| FromApi (api_key base_url : pyval).

Definition resolve (E : Externals) (r : Resolution) : M unit :=
  match r with
  | FromFile config_path => _load_config_from_file E config_path
  | FromEnv => _load_config_from_env E
  | FromApi api_key base_url => _load_models_from_api E api_key base_url
  end.

(** A caller making discovery calls in a row, stopping at the first
    that raises. *)
Definition discover_all (E : Externals) (servers : list (pyval * pyval)) : M unit :=
  for_each servers (fun '(api_key, base_url) =>
    _load_models_from_api E api_key base_url).

(** The spec's sentence: a second resolution always leaves strictly more
    entries and keeps what the identifiers mapped to. *)
Definition resolving_twice_strictly_grows : Prop :=
  forall (E : Externals) (r : Resolution) (w0 : World),
    config (self w0) = [] ->
    let w1 := snd (resolve E r w0) in
    let w2 := snd (resolve E r w1) in
    (List.length (config (self w1)) < List.length (config (self w2)))%nat /\
    forall k d,
      dict_lookup k (config (self w1)) = Some d ->
      dict_lookup k (config (self w2)) = Some d.

(** [model_identifier] equals neither the identifier nor the name of any
    descriptor of the table. *)
Definition names_no_model (i : Identifier) (table : list (Z * ModelConfig.t)) : Prop :=
  forall model, In model (dict_values table) ->
    match i with
    | ById n => ModelConfig.id model <> n
    | ByName s => ModelConfig.name model <> s
    end.

(** [self] with the transcript extended by [entries]. *)
Definition said (entries : list Message) (s : Self) : Self :=
  set_history (conversation_history s ++ entries) s.

(** The spec's sentence: a reply that is not the text of a JSON object
    makes [json_chat] return the empty map. *)
Definition non_object_reply_gives_empty_map : Prop :=
  forall (E : Externals) (message : string) (w : World)
         (model : ModelConfig.t) (c : Client)
         (text : string) (others : list (option string)),
    selected_model (self w) = Some model ->
    client (self w) = Some c ->
    completions_create E (wire w) c (ModelConfig.name model)
      (conversation_history (self w) ++ [user message]) true
    = Ok (Some text :: others) ->
    (forall entries, json_loads E text <> Return (PyDict entries)) ->
    fst (json_chat E message w) = Return (PyDict []).

(** [d.get(key, "")] on the fields of a server entry. *)
Definition or_empty (o : option pyval) : pyval :=
  match o with
  | Some v => v
  | None => PyStr ""
  end.

(** ** What discovery asks the backend, and what the backend answers *)

(** The exchanges of asking [servers] for their models one after the
    other, on top of the traffic [seen]: each server gets the answer
    [models_list] gives at that point, and the first listing that fails is
    the last exchange. *)
Fixpoint asked (E : Externals) (seen : list Exchange)
    (servers : list (pyval * pyval)) : list Exchange :=
  match servers with
  | [] => []
  | (api_key, base_url) :: rest =>
      let answer := models_list E seen api_key base_url in
      let x := XModels api_key base_url answer in
      x :: match list_fault answer with
           | Some _ => []
           | None => asked E (seen ++ [x]) rest
           end
  end.

(** Key and URL of the entries of a ["servers"] mapping, in document
    order, up to the first entry that is not a mapping. *)
Fixpoint credentials (items : list (string * pyval)) : list (pyval * pyval) :=
  match items with
  | (_, PyDict fields) :: rest =>
      (or_empty (entries_get "api_key" fields),
       or_empty (entries_get "api_url" fields)) :: credentials rest
  | _ => []
  end.

(** The servers a configuration file names: none unless the file parses
    to a mapping whose ["servers"] is a mapping. *)
Definition file_servers (E : Externals) (config_path : string)
  : list (pyval * pyval) :=
  match read_json E config_path with
  | Return (PyDict entries) =>
      match entries_get "servers" entries with
      | Some (PyDict items) => credentials items
      | _ => []
      end
  | _ => []
  end.

(** The server the environment names: none unless both variables are set
    and non-empty and the constructor accepts them. *)
Definition env_servers (E : Externals) : list (pyval * pyval) :=
  let api_key := py_of_optional (getenv E "API_KEY") in
  let base_url := py_of_optional (getenv E "BASE_URL") in
  if negb (truthy api_key) || negb (truthy base_url) then []
  else match constructor_fault E api_key base_url with
       | Some _ => []
       | None => [(api_key, base_url)]
       end.

(** The servers a resolution asks, in order. *)
Definition resolution_servers (E : Externals) (r : Resolution)
  : list (pyval * pyval) :=
  match r with
  | FromFile config_path => file_servers E config_path
  | FromEnv => env_servers E
  | FromApi api_key base_url => [(api_key, base_url)]
  end.

(** The exchanges of a resolution that starts on top of the traffic
    [seen]. *)
Definition resolution_traffic (E : Externals) (r : Resolution)
    (seen : list Exchange) : list Exchange :=
  asked E seen (resolution_servers E r).

(** The fragment a stream element yields: the [delta.content] of the first
    choice of a chunk.  A fault, or a chunk without choices, yields none
    and ends the stream. *)
Definition delta (ev : StreamEvent) : option (option string) :=
  match ev with
  | EvChunk (fragment :: _) => Some fragment
  | _ => None
  end.

(** The fragments of a stream in arrival order, up to where it ends. *)
Fixpoint fragments (events : list StreamEvent) : list (option string) :=
  match events with
  | [] => []
  | ev :: rest =>
      match delta ev with
      | Some fragment => fragment :: fragments rest
      | None => []
      end
  end.

(** What consuming a stream prints: nothing when it ends by itself, the
    failure when it breaks. *)
Fixpoint stream_report (events : list StreamEvent) : list string :=
  match events with
  | [] => []
  | EvFault msg :: _ => [("API 请求失败：" ++ msg)%string]
  | EvChunk [] :: _ => ["API 请求失败：list index out of range"%string]
  | EvChunk (_ :: _) :: rest => stream_report rest
  end.


(** ** Sample collaborators *)

Module Sample.

Definition gpt_a : RemoteModel := mkRemote "gpt-a" "acme".
Definition gpt_b : RemoteModel := mkRemote "gpt-b" "acme".

Definition key : pyval := PyStr "sk-test".
Definition url : pyval := PyStr "https://llm.example/v1".

(** [{"servers": {"main": {"api_key": .., "api_url": ..}}}] *)
Definition document : pyval :=
  PyDict [("servers", PyDict [("main", PyDict [("api_key", key); ("api_url", url)])])].

(** [{"servers": {"bare": {}}}] *)
Definition bare_document : pyval :=
  PyDict [("servers", PyDict [("bare", PyDict [])])].

Definition files (path : string) : Outcome pyval :=
  if String.eqb path "config.json" then Return document
  else if String.eqb path "bare.json" then Return bare_document
  else if String.eqb path "broken.json" then
    Raise (JSONDecodeError "Expecting value: line 1 column 1 (char 0)")
  else if String.eqb path "empty.json" then Return (PyDict [("servers", PyDict [])])
  else Raise (FileNotFoundError "[Errno 2] No such file or directory").

Definition environment (name : string) : option string :=
  if String.eqb name "API_KEY" then Some "sk-test"
  else if String.eqb name "BASE_URL" then Some "https://llm.example/v1"
  else None.

(** [json.loads] on the reply texts the examples use. *)
Definition decoder (text : string) : Outcome pyval :=
  if String.eqb text "{}" then Return (PyDict [])
  else if String.eqb text "[1]" then Return (PyList [PyInt 1])
  else Raise (JSONDecodeError "Expecting value: line 1 column 1 (char 0)").

(** A server that lists two models, replies [reply] and streams it in
    two fragments. *)
Definition server (reply : string) : Externals :=
  mkExternals files environment decoder (fun _ _ => None)
    (fun _ _ _ => mkListing [gpt_a; gpt_b] None)
    (fun _ _ _ _ _ => Ok [Some reply])
    (fun _ _ _ _ => Ok [EvChunk [Some "he"]; EvChunk [Some "llo"]]).

(** A server whose every request fails. *)
Definition down : Externals :=
  mkExternals files environment decoder (fun _ _ => None)
    (fun _ _ _ => mkListing [] (Some "Connection error."))
    (fun _ _ _ _ _ => Failed "Connection error.")
    (fun _ _ _ _ => Failed "Connection error.").

(** A server that lists one model the first time it is asked and none
    afterwards. *)
Definition retiring : Externals :=
  mkExternals files environment decoder (fun _ _ => None)
    (fun seen _ _ => match seen with
                     | [] => mkListing [gpt_a] None
                     | _ => mkListing [] None
                     end)
    (fun _ _ _ _ _ => Ok [Some "hello"])
    (fun _ _ _ _ => Ok []).

(** An instance before [__init__] ran. *)
Definition blank : World := mkWorld (mkSelf [] [] None None) [] [].

(** An instance constructed from the environment against [server reply]. *)
Definition ready (reply : string) : World :=
  snd (__init__ (server reply) None blank).

End Sample.

(** ** What a call may change *)

(** [m] always takes the attributes from some [s] to some [s'] with
    [R s s']. *)
Definition respects {A} (R : Self -> Self -> Prop) (m : M A) : Prop :=
  forall w, R (self w) (self (snd (m w))).

(** Table, selected model and client are the same. *)
Definition same_setup (s s' : Self) : Prop :=
  config s' = config s /\
  selected_model s' = selected_model s /\
  client s' = client s.

(** Transcript and selected model are the same. *)
Definition same_talk (s s' : Self) : Prop :=
  conversation_history s' = conversation_history s /\
  selected_model s' = selected_model s.

(** The transcript of [s'] is the one of [s] with entries added at its
    end. *)
Definition transcript_grows (s s' : Self) : Prop :=
  exists added, conversation_history s' = conversation_history s ++ added.

(** A selected model comes with a client. *)
Definition has_client_if_selected (s : Self) : Prop :=
  selected_model s <> None -> client s <> None.

Definition keeps_client (s s' : Self) : Prop :=
  has_client_if_selected s -> has_client_if_selected s'.

(** The calls a user of an instance can make, [next] on a generator of
    [stream_chat] and the three loaders included. *)
Inductive Call :=
| CallSetModel (model_identifier : Identifier)
| CallGetAvailableModels
| CallGetSelectedModel
| CallChat (message : string)
| CallJsonChat (message : string)
| CallStreamChat (message : string)
| CallNext (g : Generator)
| CallCleanup
| CallGetHistory
| CallAppendHistory (role content : string)
| CallSetSystemPrompt (content : string)
| CallResolve (r : Resolution).

(** The world a call leaves behind, whatever it returned or raised. *)
Definition after (E : Externals) (c : Call) (w : World) : World :=
  match c with
  | CallSetModel i => snd (set_model_by_id i w)
  | CallGetAvailableModels => snd (get_available_models w)
  | CallGetSelectedModel => snd (get_selected_model w)
  | CallChat message => snd (chat E message w)
  | CallJsonChat message => snd (json_chat E message w)
  | CallStreamChat message => snd (stream_chat message w)
  | CallNext g => snd (next E g w)
  | CallCleanup => snd (chat_cleanup w)
  | CallGetHistory => snd (get_history w)
  | CallAppendHistory role content => snd (append_history role content w)
  | CallSetSystemPrompt content => snd (set_system_prompt content w)
  | CallResolve r => snd (resolve E r w)
  end.

(** The calls that exchange messages or edit the transcript. *)
Definition talks (c : Call) : bool :=
  match c with
  | CallSetModel _ | CallResolve _ => false
  | _ => true
  end.

(** [not value] for a value read from the environment. *)
Definition unset (value : option string) : Prop :=
  value = None \/ value = Some "".

(** The descriptors' [name] and [server] of what discovery found. *)
Definition listing_of (found : list (pyval * pyval * RemoteModel))
  : list (string * string) :=
  map (fun '(_, _, model) => (remote_id model, owned_by model)) found.

(** A stream made of chunks, each with a first choice and its other
    choices. *)
Definition chunks (good : list (option string * list (option string)))
  : list StreamEvent :=
  map (fun '(fragment, others) => EvChunk (fragment :: others)) good.

(** The world after a series of calls, one after the other. *)
Definition after_all (E : Externals) (calls : list Call) (w : World) : World :=
  fold_left (fun w c => after E c w) calls w.

(** The world once [model] is selected and the client rebuilt for it. *)
Definition selecting (model : ModelConfig.t) (w : World) : World :=
  mkWorld (set_client (Some (OpenAI (ModelConfig.api_key model)
                                    (ModelConfig.url model)))
             (set_selected (Some model) (self w)))
          (stdout w) (wire w).

(** The world with the attributes [__init__] starts from. *)
Definition constructing (w : World) : World :=
  mkWorld (mkSelf [] [] None None) (stdout w) (wire w).

(** The loader [__init__] runs for its argument. *)
Definition first_resolution (config_path : option string) : Resolution :=
  match config_path with
  | Some path => if String.eqb path "" then FromEnv else FromFile path
  | None => FromEnv
  end.

(** ** More sample collaborators *)

Module Scenario.

(** [[]]: a document that is a list. *)
Definition array_document : pyval := PyList [].

(** [{"servers": [{"api_key": .., "api_url": ..}]}]: the servers as a
    list. *)
Definition listed_document : pyval :=
  PyDict [("servers",
           PyList [PyDict [("api_key", Sample.key); ("api_url", Sample.url)]])].

Definition down_url : pyval := PyStr "https://down.example/v1".

(** [{"servers": {"first": {..}, "second": {.. down ..}, "third": {..}}}] *)
Definition three_servers : pyval :=
  PyDict [("servers",
           PyDict [("first", PyDict [("api_key", Sample.key); ("api_url", Sample.url)]);
                   ("second", PyDict [("api_key", Sample.key); ("api_url", down_url)]);
                   ("third", PyDict [("api_key", Sample.key); ("api_url", Sample.url)])])].

Definition files (path : string) : Outcome pyval :=
  if String.eqb path "array.json" then Return array_document
  else if String.eqb path "listed.json" then Return listed_document
  else if String.eqb path "three.json" then Return three_servers
  else if String.eqb path "none.json" then Return (PyDict [])
  else Sample.files path.

Definition no_environment (name : string) : option string :=
  if String.eqb name "API_KEY" then Some "sk-test" else None.

Definition is_down (base_url : pyval) : bool :=
  match base_url with
  | PyStr u => String.eqb u "https://down.example/v1"
  | _ => false
  end.

(** A backend whose server at [down_url] lists one model and then fails;
    completions have the choices [choices]; streams are [events]. *)
Definition backend (getenv : string -> option string)
    (choices : list (option string)) (events : list StreamEvent) : Externals :=
  mkExternals files getenv Sample.decoder (fun _ _ => None)
    (fun _ _ base_url =>
       if is_down base_url
       then mkListing [Sample.gpt_a] (Some "Connection error.")
       else mkListing [Sample.gpt_a; Sample.gpt_b] None)
    (fun _ _ _ _ _ => Ok choices)
    (fun _ _ _ _ => Ok events).

(** A stream that breaks after its first fragment. *)
Definition broken_stream : list StreamEvent :=
  [EvChunk [Some "he"]; EvFault "Connection reset."; EvChunk [Some "llo"]].

Definition usual : Externals :=
  backend Sample.environment [Some "{}"] broken_stream.

(** An environment whose [BASE_URL] has a port that is not a number, and a
    constructor that refuses such a URL. *)
Definition bad_port_environment (name : string) : option string :=
  if String.eqb name "API_KEY" then Some "sk-test"
  else if String.eqb name "BASE_URL" then Some "http://x:abc/"
  else None.

Definition refuses_bad_port (api_key base_url : pyval) : option Exn :=
  match base_url with
  | PyStr u =>
      if String.eqb u "http://x:abc/"
      then Some (OtherError "Invalid port: 'abc'")
      else None
  | _ => None
  end.

Definition picky : Externals :=
  mkExternals files bad_port_environment Sample.decoder refuses_bad_port
    (fun _ _ _ => mkListing [Sample.gpt_a; Sample.gpt_b] None)
    (fun _ _ _ _ _ => Ok [Some "hello"])
    (fun _ _ _ _ => Ok []).

End Scenario.

(** * Properties *)

(** ** The identifier table *)

Lemma dict_set_fresh {V} (k : Z) (v : V) (d : list (Z * V)) :
  ~ In k (dict_keys d) -> dict_set k v d = d ++ [(k, v)].
Proof.
  induction d as [| [k' v'] d IH]; simpl; intros Hfresh.
  - reflexivity.
  - destruct (Z.eqb_spec k k') as [-> | Hne].
    + exfalso. apply Hfresh. now left.
    + f_equal. apply IH. intros Hin. apply Hfresh. now right.
Qed.

Lemma dict_lookup_app {V} (k : Z) (v : V) (d d' : list (Z * V)) :
  dict_lookup k d = Some v -> dict_lookup k (d ++ d') = Some v.
Proof.
  induction d as [| [k' v'] d IH]; simpl; intros H.
  - discriminate.
  - destruct (Z.eqb k k'); auto.
Qed.

Lemma contiguous_next_fresh (table : list (Z * ModelConfig.t)) :
  contiguous table -> ~ In (len table + 1)%Z (dict_keys table).
Proof.
  unfold contiguous, len. intros -> Hin.
  apply in_map_iff in Hin. destruct Hin as [i [Hi Hin]].
  apply in_seq in Hin. lia.
Qed.

Lemma enumerate_app (start : Z) (a b : list (pyval * pyval * RemoteModel)) :
  enumerate start (a ++ b) = enumerate start a ++ enumerate (start + len a) b.
Proof.
  revert start. induction a as [| f a IH]; intros start; simpl.
  - unfold len. simpl. now rewrite Z.add_0_r.
  - rewrite IH. do 3 f_equal. unfold len. simpl List.length. lia.
Qed.

Lemma enumerate_length (start : Z) (found : list (pyval * pyval * RemoteModel)) :
  List.length (enumerate start found) = List.length found.
Proof.
  revert start. induction found as [| f found IH]; intros start; simpl; auto.
Qed.

Lemma enumerate_keys (n : nat) (found : list (pyval * pyval * RemoteModel)) :
  dict_keys (enumerate (Z.of_nat n) found)
  = map Z.of_nat (seq n (List.length found)).
Proof.
  revert n. induction found as [| f found IH]; intros n; simpl.
  - reflexivity.
  - f_equal. rewrite <- IH. f_equal. f_equal. lia.
Qed.

Lemma contiguous_extend (table : list (Z * ModelConfig.t))
    (found : list (pyval * pyval * RemoteModel)) :
  contiguous table ->
  contiguous (table ++ enumerate (len table + 1) found).
Proof.
  unfold contiguous, dict_keys, len. intros H.
  rewrite map_app, length_app, seq_app, map_app, enumerate_length.
  fold (dict_keys table). fold (dict_keys (enumerate (Z.of_nat (List.length table) + 1) found)).
  unfold dict_keys at 1. rewrite H. f_equal.
  replace (Z.of_nat (List.length table) + 1)%Z
    with (Z.of_nat (1 + List.length table)) by lia.
  apply enumerate_keys.
Qed.

Lemma discovered_app (a b : list Exchange) :
  discovered (a ++ b) = discovered a ++ discovered b.
Proof. unfold discovered. apply flat_map_app. Qed.

Lemma queried_app (a b : list Exchange) :
  queried (a ++ b) = queried a ++ queried b.
Proof. unfold queried. apply flat_map_app. Qed.

Lemma with_found_nil (w : World) : with_found [] w = w.
Proof.
  destruct w as [[c h s cl] out tr]. unfold with_found, set_config. simpl.
  now rewrite app_nil_r.
Qed.

Section Discovery.

Variable E : Externals.

Lemma add_models_spec (api_key base_url : pyval) (models : list RemoteModel) :
  forall w, contiguous (config (self w)) ->
    for_each models (add_model api_key base_url) w
    = (Return tt,
       with_found (map (fun model => (api_key, base_url, model)) models) w).
Proof.
  induction models as [| model models IH]; intros w Hw.
  - simpl. unfold ret. now rewrite with_found_nil.
  - cbn [for_each]. unfold bind at 1. unfold add_model at 1, modify_self.
    cbn [ModelConfig.id].
    rewrite (dict_set_fresh _ _ _ (contiguous_next_fresh _ Hw)).
    rewrite IH.
    + f_equal. destruct w as [[c h s cl] out tr].
      unfold with_found, set_config. cbn.
      rewrite <- app_assoc. cbn.
      assert (Hlen : forall x : Z * ModelConfig.t, len (c ++ [x]) = (len c + 1)%Z).
      { intros x. unfold len. rewrite length_app. cbn. lia. }
      now rewrite Hlen.
    + cbn. apply (contiguous_extend _ [(api_key, base_url, model)] Hw).
Qed.

(** One discovery call, whatever its outcome: the exchange is on the
    wire and the listed models are appended under the next identifiers. *)
Lemma load_models_spec (api_key base_url : pyval) (w : World) :
  contiguous (config (self w)) ->
  let answer := models_list E (wire w) api_key base_url in
  _load_models_from_api E api_key base_url w
  = (match list_fault answer with
     | Some msg => Raise (APIError msg)
     | None => Return tt
     end,
     with_found (returned (XModels api_key base_url answer))
                (mkWorld (self w) (stdout w)
                         (wire w ++ [XModels api_key base_url answer]))).
Proof.
  intros Hw answer. unfold _load_models_from_api, bind, get_wire, record.
  fold answer. rewrite add_models_spec by exact Hw.
  cbn [returned]. destruct (list_fault answer); reflexivity.
Qed.

End Discovery.

(** ** Additive computations *)

Lemma additive_pure {A} (m : M A) :
  (forall w, wire (snd (m w)) = wire w) ->
  (forall w, config (self (snd (m w))) = config (self w)) ->
  additive m.
Proof.
  intros Hwire Hconfig w _. exists []. rewrite Hwire, Hconfig. cbn.
  now rewrite !app_nil_r.
Qed.

Lemma additive_ret {A} (a : A) : additive (ret a).
Proof. now apply additive_pure. Qed.

Lemma additive_raise {A} (e : Exn) : additive (@raise A e).
Proof. now apply additive_pure. Qed.

Lemma additive_print (line : string) : additive (print line).
Proof. now apply additive_pure. Qed.

Lemma additive_lift {A} (r : Outcome A) : additive (fun w => (r, w)).
Proof. now apply additive_pure. Qed.

Lemma additive_modify (f : Self -> Self) :
  (forall s, config (f s) = config s) -> additive (modify_self f).
Proof. intros Hf. apply additive_pure; intros w; cbn; auto. Qed.

Lemma extend_twice (table : list (Z * ModelConfig.t))
    (a b : list (pyval * pyval * RemoteModel)) :
  let table' := table ++ enumerate (len table + 1) a in
  table' ++ enumerate (len table' + 1) b
  = table ++ enumerate (len table + 1) (a ++ b).
Proof.
  cbn. rewrite enumerate_app, <- app_assoc. do 3 f_equal.
  unfold len. rewrite length_app, enumerate_length. lia.
Qed.

Lemma additive_bind {A B} (m : M A) (k : A -> M B) :
  additive m -> (forall a, additive (k a)) -> additive (bind m k).
Proof.
  intros Hm Hk w Hw. unfold bind.
  destruct (Hm w Hw) as [t1 [Hwire1 Hconfig1]].
  destruct (m w) as [[a | e] w1]; cbn in Hwire1, Hconfig1.
  - destruct (Hk a w1) as [t2 [Hwire2 Hconfig2]].
    { rewrite Hconfig1. now apply contiguous_extend. }
    exists (t1 ++ t2). rewrite Hwire2, Hconfig2, Hwire1, Hconfig1.
    split; [now rewrite app_assoc |].
    rewrite discovered_app. apply extend_twice.
  - exists t1. cbn. auto.
Qed.

Lemma additive_dispatch {A} (clauses : list ((Exn -> bool) * (Exn -> M A))) :
  Forall (fun clause => forall e, additive (snd clause e)) clauses ->
  forall e, additive (dispatch clauses e).
Proof.
  induction 1 as [| [catches handler] others Hhandler _ IH]; intros e; cbn.
  - apply additive_raise.
  - destruct (catches e); [apply Hhandler | apply IH].
Qed.

Lemma additive_try_except {A} (body : M A)
    (clauses : list ((Exn -> bool) * (Exn -> M A))) :
  additive body ->
  Forall (fun clause => forall e, additive (snd clause e)) clauses ->
  additive (try_except body clauses).
Proof.
  intros Hbody Hclauses w Hw. unfold try_except.
  destruct (Hbody w Hw) as [t1 [Hwire1 Hconfig1]].
  destruct (body w) as [[a | e] w1]; cbn in Hwire1, Hconfig1.
  - exists t1. cbn. auto.
  - destruct (additive_dispatch clauses Hclauses e w1) as [t2 [Hwire2 Hconfig2]].
    { rewrite Hconfig1. now apply contiguous_extend. }
    exists (t1 ++ t2). rewrite Hwire2, Hconfig2, Hwire1, Hconfig1.
    split; [now rewrite app_assoc |].
    rewrite discovered_app. apply extend_twice.
Qed.

Lemma additive_for_each {A} (l : list A) (body : A -> M unit) :
  (forall x, additive (body x)) -> additive (for_each l body).
Proof.
  intros Hbody. induction l as [| x l IH]; cbn.
  - apply additive_ret.
  - apply additive_bind; auto.
Qed.

Lemma additive_py_get (v : pyval) (key : string) (default : pyval) :
  additive (py_get v key default).
Proof. destruct v; cbn; (apply additive_ret || apply additive_raise). Qed.

Lemma additive_py_items (v : pyval) : additive (py_items v).
Proof. destruct v; cbn; (apply additive_ret || apply additive_raise). Qed.

Create HintDb additive.
#[local] Hint Resolve additive_ret additive_raise additive_print additive_lift
  additive_py_get additive_py_items : additive.

Section Resolving.

Variable E : Externals.

Lemma additive_load_models (api_key base_url : pyval) :
  additive (_load_models_from_api E api_key base_url).
Proof.
  intros w Hw. rewrite (load_models_spec E api_key base_url w Hw).
  exists [XModels api_key base_url (models_list E (wire w) api_key base_url)].
  cbn. split; [reflexivity |]. now rewrite app_nil_r.
Qed.

Lemma additive_load_file (config_path : string) :
  additive (_load_config_from_file E config_path).
Proof.
  unfold _load_config_from_file.
  apply additive_bind.
  { apply additive_try_except; [apply additive_lift |].
    repeat constructor; intros e; cbn;
      repeat (apply additive_bind; [| intros ?]);
      unfold self_config_path, exit; auto with additive. }
  intros config. apply additive_bind; [auto with additive | intros server_configs].
  apply additive_bind.
  { destruct (negb (truthy server_configs)); [| auto with additive].
    apply additive_bind; [auto with additive | intros _].
    unfold exit; auto with additive. }
  intros _. apply additive_bind; [auto with additive | intros items].
  apply additive_for_each. intros [server_name server_data]. cbn.
  apply additive_bind; [auto with additive | intros api_key].
  apply additive_bind; [auto with additive | intros api_url].
  apply additive_load_models.
Qed.

Lemma additive_load_env : additive (_load_config_from_env E).
Proof.
  unfold _load_config_from_env.
  apply additive_bind.
  { destruct (_ || _); [| auto with additive].
    apply additive_bind; [auto with additive | intros _].
    unfold exit; auto with additive. }
  intros _. apply additive_bind.
  { unfold new_client. destruct (constructor_fault _ _ _); auto with additive. }
  intros c. apply additive_bind.
  { now apply additive_modify. }
  intros _. apply additive_load_models.
Qed.

Lemma additive_resolve (r : Resolution) : additive (resolve E r).
Proof.
  destruct r; cbn;
    [apply additive_load_file | apply additive_load_env | apply additive_load_models].
Qed.

End Resolving.

(** ** Discovery *)

Section TrafficOfDiscovery.

Variable E : Externals.

(** No exchange and no new entry. *)
Lemma nothing_asked (w w' : World) :
  wire w' = wire w ->
  config (self w') = config (self w) ->
  wire w' = wire w ++ asked E (wire w) [] /\
  config (self w')
  = config (self w)
    ++ enumerate (len (config (self w)) + 1) (discovered (asked E (wire w) [])).
Proof. intros -> ->. cbn. now rewrite !app_nil_r. Qed.

(** Discovery calls in a row put on the wire what [models_list] answers,
    server after server, and append to the table the models of these
    answers, whatever the outcome. *)
Lemma discover_all_traffic (servers : list (pyval * pyval)) :
  forall w,
    contiguous (config (self w)) ->
    wire (snd (discover_all E servers w))
    = wire w ++ asked E (wire w) servers /\
    config (self (snd (discover_all E servers w)))
    = config (self w)
      ++ enumerate (len (config (self w)) + 1)
           (discovered (asked E (wire w) servers)).
Proof.
  induction servers as [| [api_key base_url] servers IH]; intros w Hw.
  - now apply nothing_asked.
  - unfold discover_all. cbn [for_each asked]. unfold bind.
    rewrite (load_models_spec E api_key base_url w Hw).
    set (answer := models_list E (wire w) api_key base_url).
    set (x := XModels api_key base_url answer).
    destruct (list_fault answer) as [msg |].
    + cbn. split; [reflexivity |]. now rewrite app_nil_r.
    + fold (discover_all E servers).
      match goal with
      | |- context [discover_all E servers ?w1] =>
          destruct (IH w1) as [Hwire Hconfig];
            [cbn; now apply contiguous_extend |]
      end.
      rewrite Hwire, Hconfig.
      cbn [with_found self stdout wire config set_config].
      split; [now rewrite <- app_assoc |].
      change (discovered (x :: asked E (wire w ++ [x]) servers))
        with (returned x ++ discovered (asked E (wire w ++ [x]) servers)).
      apply extend_twice.
Qed.

(** When they all return, every server was asked. *)
Lemma discover_all_queried (servers : list (pyval * pyval)) :
  forall w w',
    contiguous (config (self w)) ->
    discover_all E servers w = (Return tt, w') ->
    queried (asked E (wire w) servers) = servers.
Proof.
  induction servers as [| [api_key base_url] servers IH]; intros w w' Hw Hrun.
  - reflexivity.
  - unfold discover_all in Hrun. cbn [for_each] in Hrun.
    unfold bind at 1 in Hrun.
    rewrite (load_models_spec E api_key base_url w Hw) in Hrun.
    cbn [asked]. set (answer := models_list E (wire w) api_key base_url) in *.
    destruct (list_fault answer); [discriminate |].
    unfold queried in *. cbn [flat_map app]. f_equal.
    match type of Hrun with
    | for_each _ _ ?w1 = _ => apply (IH w1 w'); [| exact Hrun]
    end.
    cbn. now apply contiguous_extend.
Qed.

(** The loop of the file loader leaves the world that discovery calls for
    the credentials of its entries leave. *)
Lemma load_servers_world (items : list (string * pyval)) :
  forall w,
    snd (for_each items (load_server E) w)
    = snd (discover_all E (credentials items) w).
Proof.
  induction items as [| [server_name server_data] items IH]; intros w.
  - reflexivity.
  - destruct server_data; try reflexivity.
    assert (Hbody : load_server E (server_name, PyDict entries) w
                    = _load_models_from_api E
                        (or_empty (entries_get "api_key" entries))
                        (or_empty (entries_get "api_url" entries)) w)
      by reflexivity.
    unfold discover_all. cbn [for_each credentials]. unfold bind.
    rewrite Hbody.
    destruct (_load_models_from_api E _ _ w) as [[[] | e] w1]; [| reflexivity].
    apply IH.
Qed.

(** A resolution puts on the wire what [models_list] answers to the
    servers it asks and appends to the table the models of these answers,
    under the next identifiers, whatever its outcome. *)
Lemma resolve_traffic (r : Resolution) (w : World) :
  contiguous (config (self w)) ->
  wire (snd (resolve E r w)) = wire w ++ resolution_traffic E r (wire w) /\
  config (self (snd (resolve E r w)))
  = config (self w)
    ++ enumerate (len (config (self w)) + 1)
         (discovered (resolution_traffic E r (wire w))).
Proof.
  intros Hw. unfold resolution_traffic.
  remember (snd (resolve E r w)) as w' eqn:Hw'.
  destruct r as [config_path | | api_key base_url];
    cbn [resolve resolution_servers] in *.
  - unfold _load_config_from_file, bind at 1, try_except in Hw'.
    unfold file_servers.
    destruct (read_json E config_path) as [doc | e].
    + destruct doc; try (subst w'; now apply nothing_asked).
      unfold bind at 1 in Hw'. cbn [py_get ret] in Hw'.
      destruct (entries_get "servers" entries) as [servers |];
        [| subst w'; now apply nothing_asked].
      destruct servers as [| b | z | f | t | l | items].
      * subst w'; now apply nothing_asked.
      * destruct b; subst w'; now apply nothing_asked.
      * cbn [truthy] in Hw'. destruct (negb (negb (z =? 0)%Z));
          subst w'; now apply nothing_asked.
      * destruct f as [| neg | m e]; try (subst w'; now apply nothing_asked).
        cbn [truthy] in Hw'. destruct (negb (negb (m =? 0)%Z));
          subst w'; now apply nothing_asked.
      * cbn [truthy] in Hw'. destruct (negb (negb (String.eqb t "")));
          subst w'; now apply nothing_asked.
      * destruct l; subst w'; now apply nothing_asked.
      * destruct items as [| item items]; [subst w'; now apply nothing_asked |].
        cbn [truthy negb] in Hw'. unfold bind at 1 in Hw'.
        cbn [ret py_items] in Hw'. unfold bind at 1 in Hw'. cbn [ret] in Hw'.
        rewrite load_servers_world in Hw'. subst w'.
        now apply discover_all_traffic.
    + cbn [dispatch] in Hw'.
      destruct (is_FileNotFoundError e); [subst w'; now apply nothing_asked |].
      destruct (is_JSONDecodeError e); subst w'; now apply nothing_asked.
  - unfold _load_config_from_env, bind at 1 in Hw'. unfold env_servers.
    destruct (negb (truthy (py_of_optional (getenv E "API_KEY")))
              || negb (truthy (py_of_optional (getenv E "BASE_URL"))));
      [subst w'; now apply nothing_asked |].
    cbn [ret] in Hw'. unfold bind at 1, new_client in Hw'.
    destruct (constructor_fault E _ _); [subst w'; now apply nothing_asked |].
    cbn [ret] in Hw'. unfold bind at 1, modify_self in Hw'.
    match type of Hw' with
    | context [_load_models_from_api E ?k ?u ?w0] =>
        rewrite (load_models_spec E k u w0 Hw) in Hw'
    end.
    subst w'.
    cbn [snd with_found self stdout wire config set_config set_client asked].
    destruct (list_fault
                (models_list E (wire w) (py_of_optional (getenv E "API_KEY"))
                   (py_of_optional (getenv E "BASE_URL"))));
      (split; [reflexivity | cbn; now rewrite app_nil_r]).
  - rewrite (load_models_spec E api_key base_url w Hw) in Hw'. cbn [asked].
    set (answer := models_list E (wire w) api_key base_url) in *.
    subst w'.
    cbn [snd with_found self stdout wire config set_config].
    split.
    + destruct (list_fault answer); reflexivity.
    + destruct (list_fault answer); cbn; now rewrite app_nil_r.
Qed.

End TrafficOfDiscovery.

(** C4. After any sequence of discovery calls that all return normally,
    starting from an empty table, the table holds exactly the models the
    backend listed for the queried servers ([models_list] asked server
    after server), in query order then listing order, the i-th of them
    under identifier i: its keys are 1..N with N the total number of
    models returned. *)
Theorem discovery_keys_contiguous (E : Externals)
    (servers : list (pyval * pyval)) (w w' : World) :
  config (self w) = [] ->
  discover_all E servers w = (Return tt, w') ->
  let traffic := asked E (wire w) servers in
  wire w' = wire w ++ traffic /\
  queried traffic = servers /\
  config (self w') = enumerate 1 (discovered traffic) /\
  dict_keys (config (self w'))
  = map Z.of_nat (seq 1 (List.length (discovered traffic))).
Proof.
  intros Hempty Hrun traffic.
  assert (Hw : contiguous (config (self w))) by now rewrite Hempty.
  destruct (discover_all_traffic E servers w Hw) as [Hwire Hconfig].
  rewrite Hrun in Hwire, Hconfig. cbn [snd] in Hwire, Hconfig.
  rewrite Hempty in Hconfig. cbn in Hconfig. fold traffic in Hwire, Hconfig.
  repeat split; auto.
  - apply (discover_all_queried E servers w w' Hw Hrun).
  - rewrite Hconfig. apply (enumerate_keys 1).
Qed.

Lemma discovery_keys_contiguous_witness :
  let E := Sample.server "hello" in
  let servers := [(Sample.key, Sample.url); (PyStr "", PyStr "")] in
  let w' := snd (discover_all E servers Sample.blank) in
  let traffic := asked E (wire Sample.blank) servers in
  wire w' = wire Sample.blank ++ traffic /\
  queried traffic = servers /\
  config (self w') = enumerate 1 (discovered traffic) /\
  dict_keys (config (self w'))
  = map Z.of_nat (seq 1 (List.length (discovered traffic))).
Proof.
  apply (discovery_keys_contiguous (Sample.server "hello")
           [(Sample.key, Sample.url); (PyStr "", PyStr "")] Sample.blank).
  - reflexivity.
  - reflexivity.
Defined.

(** On the sample server, which lists two models for every server asked,
    two servers give the identifiers 1 to 4. *)
Example four_models_from_two_servers :
  dict_keys (config (self (snd (discover_all (Sample.server "hello")
                                  [(Sample.key, Sample.url); (PyStr "", PyStr "")]
                                  Sample.blank))))
  = [1; 2; 3; 4]%Z
  /\ map (fun entry => ModelConfig.name (snd entry))
         (config (self (snd (discover_all (Sample.server "hello")
                               [(Sample.key, Sample.url); (PyStr "", PyStr "")]
                               Sample.blank))))
     = ["gpt-a"; "gpt-b"; "gpt-a"; "gpt-b"]%string.
Proof. split; reflexivity. Qed.

Lemma additive_set_model (i : Identifier) : additive (set_model_by_id i).
Proof.
  assert (Hscan : forall models w,
             wire (snd (scan_models i models w)) = wire w /\
             config (self (snd (scan_models i models w))) = config (self w)).
  { induction models as [| m models IH]; intros w; [now split |].
    cbn [scan_models]. destruct (identifies i m); [now split | apply IH]. }
  apply additive_pure; intros w; unfold set_model_by_id, bind, get_self;
    apply Hscan.
Qed.

(** ** Resolving again *)

(** C5, as stated, fails: a server that lists a model at the first
    resolution and none at the second leaves the table at one entry. *)
Lemma resolving_twice_may_not_grow : ~ resolving_twice_strictly_grows.
Proof.
  intros Hclaim.
  destruct (Hclaim Sample.retiring FromEnv Sample.blank eq_refl) as [Hlt _].
  vm_compute in Hlt. lia.
Qed.

(** C5, amended.  Running resolution a second time on top of the first
    appends exactly the models the second run's discovery calls returned,
    that is the models the backend listed for the servers the second run
    asked, in order and under the next identifiers: the table never
    shrinks, it has strictly more entries whenever at least one model was
    returned, and every identifier assigned before still maps to the same
    descriptor. *)
Theorem resolving_twice_is_additive (E : Externals) (r1 r2 : Resolution) (w0 : World) :
  config (self w0) = [] ->
  let w1 := snd (resolve E r1 w0) in
  let w2 := snd (resolve E r2 w1) in
  let first := resolution_traffic E r1 (wire w0) in
  let traffic := resolution_traffic E r2 (wire w1) in
  wire w2 = wire w1 ++ traffic /\
  config (self w1) = enumerate 1 (discovered first) /\
  config (self w2)
  = config (self w1)
    ++ enumerate (len (config (self w1)) + 1) (discovered traffic) /\
  List.length (config (self w2))
  = (List.length (config (self w1)) + List.length (discovered traffic))%nat /\
  (discovered traffic <> [] ->
   (List.length (config (self w1)) < List.length (config (self w2)))%nat) /\
  (forall k d,
     dict_lookup k (config (self w1)) = Some d ->
     dict_lookup k (config (self w2)) = Some d).
Proof.
  intros Hempty w1 w2 first traffic.
  assert (Hw0 : contiguous (config (self w0))) by now rewrite Hempty.
  destruct (resolve_traffic E r1 w0 Hw0) as [_ Hconfig1].
  fold w1 first in Hconfig1. rewrite Hempty in Hconfig1. cbn in Hconfig1.
  assert (Hw1 : contiguous (config (self w1))).
  { rewrite Hconfig1. apply (contiguous_extend [] (discovered first)).
    reflexivity. }
  destruct (resolve_traffic E r2 w1 Hw1) as [Hwire2 Hconfig2].
  fold w2 traffic in Hwire2, Hconfig2.
  assert (Hlen : List.length (config (self w2))
                 = (List.length (config (self w1))
                    + List.length (discovered traffic))%nat).
  { rewrite Hconfig2, length_app, enumerate_length. reflexivity. }
  split; [exact Hwire2 |]. split; [exact Hconfig1 |].
  split; [exact Hconfig2 |]. split; [exact Hlen |]. split.
  - intros Hsome. rewrite Hlen.
    destruct (discovered traffic); [congruence | cbn; lia].
  - intros k d Hk. rewrite Hconfig2. now apply dict_lookup_app.
Qed.

Lemma resolving_twice_is_additive_witness :
  let E := Sample.server "hello" in
  let w0 := Sample.blank in
  let w1 := snd (resolve E FromEnv w0) in
  let w2 := snd (resolve E (FromFile "config.json") w1) in
  let first := resolution_traffic E FromEnv (wire w0) in
  let traffic := resolution_traffic E (FromFile "config.json") (wire w1) in
  wire w2 = wire w1 ++ traffic /\
  config (self w1) = enumerate 1 (discovered first) /\
  config (self w2)
  = config (self w1)
    ++ enumerate (len (config (self w1)) + 1) (discovered traffic) /\
  List.length (config (self w2))
  = (List.length (config (self w1)) + List.length (discovered traffic))%nat /\
  (discovered traffic <> [] ->
   (List.length (config (self w1)) < List.length (config (self w2)))%nat) /\
  (forall k d,
     dict_lookup k (config (self w1)) = Some d ->
     dict_lookup k (config (self w2)) = Some d).
Proof.
  apply (resolving_twice_is_additive (Sample.server "hello") FromEnv
           (FromFile "config.json") Sample.blank).
  reflexivity.
Defined.

(** On the sample server, resolving from the environment and then from
    the file leaves the two models twice, under the identifiers 1 to 4. *)
Example resolved_twice_on_the_sample :
  map (fun entry => (fst entry, ModelConfig.name (snd entry)))
      (config (self (snd (resolve (Sample.server "hello") (FromFile "config.json")
                            (snd (resolve (Sample.server "hello") FromEnv
                                    Sample.blank))))))
  = [(1%Z, "gpt-a"); (2%Z, "gpt-b"); (3%Z, "gpt-a"); (4%Z, "gpt-b")]%string.
Proof. reflexivity. Qed.

(** ** Selecting a model *)

Lemma scan_models_no_match (i : Identifier) (models : list ModelConfig.t) (w : World) :
  (forall model, In model models -> identifies i model = false) ->
  scan_models i models w
  = (Raise (ValueError ("Model " ++ str_identifier i ++ " not found in config")%string), w).
Proof.
  induction models as [| model models IH]; intros Hnone.
  - reflexivity.
  - cbn [scan_models]. rewrite (Hnone model) by now left.
    apply IH. intros m Hm. apply Hnone. now right.
Qed.

(** C7. When the argument matches neither the identifier nor the name of
    any descriptor, [set_model_by_id] raises [ValueError] and leaves the
    instance as it was: same selected model, same client (and same table,
    transcript, output and traffic). *)
Theorem set_model_unknown_raises (i : Identifier) (w : World) :
  names_no_model i (config (self w)) ->
  set_model_by_id i w
  = (Raise (ValueError ("Model " ++ str_identifier i ++ " not found in config")%string), w)
  /\ selected_model (self (snd (set_model_by_id i w))) = selected_model (self w)
  /\ client (self (snd (set_model_by_id i w))) = client (self w).
Proof.
  intros Hnone.
  assert (Hrun : set_model_by_id i w
                 = (Raise (ValueError ("Model " ++ str_identifier i
                                       ++ " not found in config")%string), w)).
  { unfold set_model_by_id, bind, get_self.
    apply scan_models_no_match. intros model Hin.
    specialize (Hnone model Hin). destruct i as [n | s]; cbn.
    - apply Z.eqb_neq. congruence.
    - apply String.eqb_neq. congruence. }
  rewrite Hrun. auto.
Qed.

Lemma set_model_unknown_raises_witness :
  set_model_by_id (ById 7) (Sample.ready "hello")
  = (Raise (ValueError "Model 7 not found in config"), Sample.ready "hello")
  /\ selected_model (self (snd (set_model_by_id (ById 7)
                                  (Sample.ready "hello"))))
     = selected_model (self (Sample.ready "hello"))
  /\ client (self (snd (set_model_by_id (ById 7)
                          (Sample.ready "hello"))))
     = client (self (Sample.ready "hello")).
Proof.
  apply (set_model_unknown_raises (ById 7) (Sample.ready "hello")).
  intros model Hin. vm_compute in Hin.
  destruct Hin as [<- | [<- | []]]; cbn; lia.
Defined.

(** When [set_model_by_id] returns, the selected model is the first
    descriptor of the table the argument identifies, and the client is
    built from that descriptor's key and URL: a selected model always
    comes with a client. *)
Lemma scan_models_binds (i : Identifier) (models : list ModelConfig.t) :
  forall w w',
    scan_models i models w = (Return tt, w') ->
    exists skipped model rest,
      models = skipped ++ model :: rest /\
      (forall m, In m skipped -> identifies i m = false) /\
      identifies i model = true /\
      w' = mkWorld (set_client (Some (OpenAI (ModelConfig.api_key model)
                                             (ModelConfig.url model)))
                      (set_selected (Some model) (self w)))
                   (stdout w) (wire w).
Proof.
  induction models as [| m models IH]; intros w w' Hrun.
  - discriminate.
  - cbn [scan_models] in Hrun. destruct (identifies i m) eqn:Hm.
    + exists [], m, models. inversion Hrun. repeat split; auto.
      intros m' [].
    + destruct (IH w w' Hrun) as [skipped [model [rest [-> [Hskip [Hmodel ->]]]]]].
      exists (m :: skipped), model, rest. repeat split; auto.
      intros m' [<- | Hin]; auto.
Qed.

Lemma set_model_binds_client (i : Identifier) (w w' : World) :
  set_model_by_id i w = (Return tt, w') ->
  exists model,
    In model (dict_values (config (self w))) /\
    identifies i model = true /\
    selected_model (self w') = Some model /\
    client (self w')
    = Some (OpenAI (ModelConfig.api_key model) (ModelConfig.url model)) /\
    conversation_history (self w') = conversation_history (self w) /\
    config (self w') = config (self w).
Proof.
  unfold set_model_by_id, bind, get_self. intros Hrun.
  destruct (scan_models_binds i _ w w' Hrun)
    as [skipped [model [rest [Hsplit [_ [Hmodel ->]]]]]].
  exists model. rewrite Hsplit. repeat split; auto.
  apply in_or_app. right. now left.
Qed.

(** ** Blocking exchange *)

Lemma said_said (a b : list Message) (s : Self) :
  said b (said a s) = said (a ++ b) s.
Proof. unfold said, set_history. cbn. now rewrite app_assoc. Qed.

(** The backend request of [chat] and [json_chat], once a client and a
    model are in place. *)
Lemma create_completion_run (E : Externals) (json_object : bool) (w : World)
    (model : ModelConfig.t) (c : Client) :
  selected_model (self w) = Some model ->
  client (self w) = Some c ->
  let answer := completions_create E (wire w) c (ModelConfig.name model)
                  (conversation_history (self w)) json_object in
  create_completion E json_object w
  = (match answer with
     | Ok choices => Return choices
     | Failed msg => Raise (APIError msg)
     end,
     mkWorld (self w) (stdout w)
             (wire w ++ [XCreate c (ModelConfig.name model)
                           (conversation_history (self w)) json_object answer])).
Proof.
  intros Hsel Hcl answer.
  unfold create_completion, bind, get_self, get_wire, record.
  rewrite Hcl, Hsel. cbn [self stdout wire]. fold answer.
  destruct answer; reflexivity.
Qed.

(** The first lines of [chat] and [json_chat]: the check and the append. *)
Lemma history_append_run (m : Message) (w : World) :
  history_append m w
  = (Return tt, mkWorld (said [m] (self w)) (stdout w) (wire w)).
Proof. reflexivity. Qed.

(** C2. With a model selected, when the backend answers the request with a
    completion that has a first choice, [chat] returns that choice's
    content, and the transcript is the old one followed by the user message
    and the assistant reply: two entries more, roles "user" then
    "assistant".  The request carried the transcript including the user
    message. *)
Theorem chat_success_appends_two (E : Externals) (message : string) (w : World)
    (model : ModelConfig.t) (c : Client)
    (reply : option string) (others : list (option string)) :
  selected_model (self w) = Some model ->
  client (self w) = Some c ->
  completions_create E (wire w) c (ModelConfig.name model)
    (conversation_history (self w) ++ [user message]) false
  = Ok (reply :: others) ->
  let w' := snd (chat E message w) in
  fst (chat E message w) = Return reply /\
  conversation_history (self w')
  = conversation_history (self w)
    ++ [mkMessage "user" (Some message); mkMessage "assistant" reply] /\
  List.length (conversation_history (self w'))
  = (List.length (conversation_history (self w)) + 2)%nat /\
  map role (skipn (List.length (conversation_history (self w)))
                  (conversation_history (self w')))
  = ["user"; "assistant"]%string /\
  wire w' = wire w ++ [XCreate c (ModelConfig.name model)
                         (conversation_history (self w) ++ [user message])
                         false (Ok (reply :: others))].
Proof.
  intros Hsel Hcl Hanswer.
  assert (Hrun : chat E message w
                 = (Return reply,
                    mkWorld (said [user message; assistant reply] (self w))
                            (stdout w)
                            (wire w ++ [XCreate c (ModelConfig.name model)
                                          (conversation_history (self w) ++ [user message])
                                          false (Ok (reply :: others))]))).
  { unfold chat, bind at 1, get_self. rewrite Hsel.
    unfold bind at 1. rewrite history_append_run.
    unfold try_except, bind at 1.
    rewrite (create_completion_run E false _ model c) by assumption.
    cbn [self stdout wire said set_history conversation_history].
    rewrite Hanswer. unfold bind at 1. cbn [first_choice ret].
    unfold bind. rewrite history_append_run. cbn [self stdout wire ret].
    now rewrite said_said. }
  rewrite Hrun. cbn.
  repeat split.
  - rewrite length_app. reflexivity.
  - rewrite skipn_app, skipn_all, Nat.sub_diag. reflexivity.
Qed.

Lemma chat_success_appends_two_witness :
  let E := Sample.server "hello" in
  let w := Sample.ready "hello" in
  let w' := snd (chat E "hi" w) in
  fst (chat E "hi" w) = Return (Some "hello") /\
  conversation_history (self w')
  = conversation_history (self w)
    ++ [mkMessage "user" (Some "hi"); mkMessage "assistant" (Some "hello")] /\
  List.length (conversation_history (self w'))
  = (List.length (conversation_history (self w)) + 2)%nat /\
  map role (skipn (List.length (conversation_history (self w)))
                  (conversation_history (self w')))
  = ["user"; "assistant"]%string /\
  wire w' = wire w ++ [XCreate (OpenAI Sample.key Sample.url) "gpt-a"
                         (conversation_history (self w) ++ [user "hi"])
                         false (Ok [Some "hello"])].
Proof.
  apply (chat_success_appends_two (Sample.server "hello") "hi"
           (Sample.ready "hello")
           (ModelConfig.mk "gpt-a" 1 "acme" Sample.url Sample.key)
           (OpenAI Sample.key Sample.url) (Some "hello") []);
    reflexivity.
Defined.

(** C3. With a model selected, when the backend request of [chat] fails,
    [chat] does not raise: it prints the failure and returns [None], and
    the transcript is the old one followed by the user message only. *)
Theorem chat_failure_keeps_user_turn (E : Externals) (message : string) (w : World)
    (model : ModelConfig.t) (c : Client) (msg : string) :
  selected_model (self w) = Some model ->
  client (self w) = Some c ->
  completions_create E (wire w) c (ModelConfig.name model)
    (conversation_history (self w) ++ [user message]) false
  = Failed msg ->
  let w' := snd (chat E message w) in
  fst (chat E message w) = Return None /\
  conversation_history (self w')
  = conversation_history (self w) ++ [mkMessage "user" (Some message)] /\
  List.length (conversation_history (self w'))
  = (List.length (conversation_history (self w)) + 1)%nat /\
  stdout w' = stdout w ++ [("API 请求失败：" ++ msg)%string].
Proof.
  intros Hsel Hcl Hanswer.
  assert (Hrun : chat E message w
                 = (Return None,
                    mkWorld (said [user message] (self w))
                            (stdout w ++ [("API 请求失败：" ++ msg)%string])
                            (wire w ++ [XCreate c (ModelConfig.name model)
                                          (conversation_history (self w) ++ [user message])
                                          false (Failed msg)]))).
  { unfold chat, bind at 1, get_self. rewrite Hsel.
    unfold bind at 1. rewrite history_append_run.
    unfold try_except, bind at 1.
    rewrite (create_completion_run E false _ model c) by assumption.
    cbn [self stdout wire said set_history conversation_history].
    rewrite Hanswer. reflexivity. }
  rewrite Hrun. cbn [fst snd self stdout wire said set_history conversation_history].
  repeat split. apply length_app.
Qed.

Lemma chat_failure_keeps_user_turn_witness :
  let E := Sample.down in
  let w := Sample.ready "hello" in
  let w' := snd (chat E "hi" w) in
  fst (chat E "hi" w) = Return None /\
  conversation_history (self w')
  = conversation_history (self w) ++ [mkMessage "user" (Some "hi")] /\
  List.length (conversation_history (self w'))
  = (List.length (conversation_history (self w)) + 1)%nat /\
  stdout w' = stdout w ++ [("API 请求失败：" ++ "Connection error.")%string].
Proof.
  apply (chat_failure_keeps_user_turn Sample.down "hi" (Sample.ready "hello")
           (ModelConfig.mk "gpt-a" 1 "acme" Sample.url Sample.key)
           (OpenAI Sample.key Sample.url) "Connection error.");
    reflexivity.
Defined.


(** ** Structured exchange *)

(** C6, as stated, fails: the reply [[1]] is well-formed JSON but not an
    object, and [json_chat] returns the list it decodes to. *)
Lemma non_object_reply_is_returned : ~ non_object_reply_gives_empty_map.
Proof.
  intros Hclaim.
  specialize (Hclaim (Sample.server "[1]") "hi" (Sample.ready "hello")
                (ModelConfig.mk "gpt-a" 1 "acme" Sample.url Sample.key)
                (OpenAI Sample.key Sample.url) "[1]" []
                eq_refl eq_refl eq_refl).
  assert (Hrun : fst (json_chat (Sample.server "[1]") "hi" (Sample.ready "hello"))
                 = Return (PyList [PyInt 1])) by reflexivity.
  rewrite Hrun in Hclaim.
  assert (Hno : forall entries,
             json_loads (Sample.server "[1]") "[1]" <> Return (PyDict entries)).
  { intros entries. cbn. discriminate. }
  specialize (Hclaim Hno). discriminate.
Qed.

(** C6, amended.  With a model selected, when the backend request
    succeeds and [json.loads] rejects the reply text with a
    [JSONDecodeError], [json_chat] prints the parse error and returns the
    empty map, and the transcript is the old one followed by the user
    message and an assistant entry holding the raw reply text: two entries
    more. *)
Theorem json_chat_undecodable_reply (E : Externals) (message : string) (w : World)
    (model : ModelConfig.t) (c : Client)
    (text : string) (others : list (option string)) (why : string) :
  selected_model (self w) = Some model ->
  client (self w) = Some c ->
  completions_create E (wire w) c (ModelConfig.name model)
    (conversation_history (self w) ++ [user message]) true
  = Ok (Some text :: others) ->
  json_loads E text = Raise (JSONDecodeError why) ->
  let w' := snd (json_chat E message w) in
  fst (json_chat E message w) = Return (PyDict []) /\
  conversation_history (self w')
  = conversation_history (self w)
    ++ [mkMessage "user" (Some message); mkMessage "assistant" (Some text)] /\
  List.length (conversation_history (self w'))
  = (List.length (conversation_history (self w)) + 2)%nat /\
  stdout w' = stdout w ++ ["错误：模型返回的内容无法解析为JSON"%string].
Proof.
  intros Hsel Hcl Hanswer Hloads.
  assert (Hrun : json_chat E message w
                 = (Return (PyDict []),
                    mkWorld (said [user message; assistant (Some text)] (self w))
                            (stdout w ++ ["错误：模型返回的内容无法解析为JSON"%string])
                            (wire w ++ [XCreate c (ModelConfig.name model)
                                          (conversation_history (self w) ++ [user message])
                                          true (Ok (Some text :: others))]))).
  { unfold json_chat, bind at 1, get_self. rewrite Hsel.
    unfold bind at 1. rewrite history_append_run.
    unfold try_except, bind at 1.
    rewrite (create_completion_run E true _ model c) by assumption.
    cbn [self stdout wire said set_history conversation_history].
    rewrite Hanswer. unfold bind at 1. cbn [first_choice ret].
    unfold bind at 1. rewrite history_append_run. cbn [self stdout wire loads].
    rewrite Hloads, said_said. reflexivity. }
  rewrite Hrun. cbn [fst snd self stdout wire said set_history conversation_history].
  repeat split. apply length_app.
Qed.

Lemma json_chat_undecodable_reply_witness :
  let E := Sample.server "oops" in
  let w := Sample.ready "hello" in
  let w' := snd (json_chat E "hi" w) in
  fst (json_chat E "hi" w) = Return (PyDict []) /\
  conversation_history (self w')
  = conversation_history (self w)
    ++ [mkMessage "user" (Some "hi"); mkMessage "assistant" (Some "oops")] /\
  List.length (conversation_history (self w'))
  = (List.length (conversation_history (self w)) + 2)%nat /\
  stdout w' = stdout w ++ ["错误：模型返回的内容无法解析为JSON"%string].
Proof.
  apply (json_chat_undecodable_reply (Sample.server "oops") "hi"
           (Sample.ready "hello")
           (ModelConfig.mk "gpt-a" 1 "acme" Sample.url Sample.key)
           (OpenAI Sample.key Sample.url) "oops" []
           "Expecting value: line 1 column 1 (char 0)");
    reflexivity.
Defined.


(** ** Loading the configuration file *)

(** C8, the missing file.  When the path does not exist, the handler for
    [FileNotFoundError] fails on [self.config_path] before it prints or
    exits: [_load_config_from_file] raises [AttributeError], an ordinary
    exception, with nothing reported. *)
Theorem missing_file_raises_AttributeError (E : Externals) (config_path : string)
    (w : World) (why : string) :
  read_json E config_path = Raise (FileNotFoundError why) ->
  _load_config_from_file E config_path w
  = (Raise (AttributeError "'ChatClient' object has no attribute 'config_path'"), w).
Proof.
  intros Hread. unfold _load_config_from_file, bind, try_except.
  rewrite Hread. reflexivity.
Qed.

Lemma missing_file_raises_AttributeError_witness :
  _load_config_from_file (Sample.server "hello") "missing.json" Sample.blank
  = (Raise (AttributeError "'ChatClient' object has no attribute 'config_path'"),
     Sample.blank).
Proof.
  apply (missing_file_raises_AttributeError (Sample.server "hello") "missing.json"
           Sample.blank "[Errno 2] No such file or directory").
  reflexivity.
Defined.

(** X5. A configuration file that is not JSON is fatal: the loader prints
    the format error and raises [SystemExit] with status 1, leaving the
    instance and the traffic as they were. *)
Lemma malformed_file_exits (E : Externals) (config_path : string) (w : World)
    (why : string) :
  read_json E config_path = Raise (JSONDecodeError why) ->
  _load_config_from_file E config_path w
  = (Raise (SystemExit 1),
     mkWorld (self w) (stdout w ++ ["错误：配置文件格式不正确"%string]) (wire w)).
Proof.
  intros Hread. unfold _load_config_from_file, bind, try_except.
  rewrite Hread. reflexivity.
Qed.

(** X6. A document without a ["servers"] entry, or whose ["servers"] is
    empty or any other falsy value, is fatal: the loader prints that no
    server is defined and raises [SystemExit] with status 1, without
    contacting any backend. *)
Lemma no_servers_exits (E : Externals) (config_path : string) (w : World)
    (entries : list (string * pyval)) (servers : pyval) :
  read_json E config_path = Return (PyDict entries) ->
  match entries_get "servers" entries with
  | Some v => v
  | None => PyDict []
  end = servers ->
  truthy servers = false ->
  _load_config_from_file E config_path w
  = (Raise (SystemExit 1),
     mkWorld (self w) (stdout w ++ ["错误：配置文件中未定义任何服务端"%string]) (wire w)).
Proof.
  intros Hread Hservers Hempty. unfold _load_config_from_file, bind, try_except.
  rewrite Hread. cbn [py_get ret]. rewrite Hservers, Hempty. reflexivity.
Qed.

Lemma bind_ext {A B} (m : M A) (k1 k2 : A -> M B) (w : World) :
  (forall a w', k1 a w' = k2 a w') -> bind m k1 w = bind m k2 w.
Proof.
  intros Hk. unfold bind. destruct (m w) as [[a | e] w1]; [apply Hk | reflexivity].
Qed.

Lemma for_each_app {A} (a b : list A) (body : A -> M unit) (w : World) :
  for_each (a ++ b) body w = (for_each a body ;;; for_each b body) w.
Proof.
  revert w. induction a as [| x a IH]; intros w.
  - reflexivity.
  - cbn [app for_each]. unfold bind.
    destruct (body x w) as [[[] | e] w1]; [| reflexivity].
    rewrite IH. reflexivity.
Qed.

(** Every discovery call reaches the backend with the credentials it was
    given. *)
Lemma load_models_reaches_backend (E : Externals) (api_key base_url : pyval)
    (w : World) :
  exists answer,
    wire (snd (_load_models_from_api E api_key base_url w))
    = wire w ++ [XModels api_key base_url answer].
Proof.
  exists (models_list E (wire w) api_key base_url).
  unfold _load_models_from_api, bind at 1, get_wire.
  unfold bind at 1, record. unfold bind at 1.
  set (w1 := mkWorld (self w) (stdout w) _).
  assert (Hloop : forall models w0, exists s',
             for_each models (add_model api_key base_url) w0
             = (Return tt, mkWorld s' (stdout w0) (wire w0))).
  { induction models as [| m models IH]; intros w0.
    - exists (self w0). now destruct w0.
    - cbn [for_each]. unfold bind, add_model at 1, modify_self.
      match goal with
      | |- context [for_each models _ ?w1] => destruct (IH w1) as [s' Hs]
      end.
      rewrite Hs. exists s'. reflexivity. }
  destruct (Hloop (listed (models_list E (wire w) api_key base_url)) w1) as [s' Hs].
  rewrite Hs. destruct (list_fault _); reflexivity.
Qed.

(** C10. A server entry of the configuration document is not checked for
    its fields: whatever of ["api_key"] and ["api_url"] it lacks is taken
    to be the empty string, and the discovery call is made with these
    values, after the calls for the servers listed before it and before
    those listed after it. *)
Theorem missing_fields_default_to_empty (E : Externals) (config_path : string)
    (entries : list (string * pyval))
    (before after : list (string * pyval))
    (server_name : string) (fields : list (string * pyval)) (w : World) :
  read_json E config_path = Return (PyDict entries) ->
  entries_get "servers" entries
  = Some (PyDict (before ++ (server_name, PyDict fields) :: after)) ->
  _load_config_from_file E config_path w
  = (for_each before (load_server E) ;;;
     _load_models_from_api E (or_empty (entries_get "api_key" fields))
                             (or_empty (entries_get "api_url" fields)) ;;;
     for_each after (load_server E)) w.
Proof.
  intros Hread Hservers.
  unfold _load_config_from_file, bind at 1, try_except. rewrite Hread.
  unfold bind at 1. cbn [py_get ret]. rewrite Hservers.
  assert (Htruthy : truthy (PyDict (before ++ (server_name, PyDict fields) :: after))
                    = true) by now destruct before.
  rewrite Htruthy. cbn [negb]. unfold bind at 1. cbn [ret py_items].
  unfold bind at 1. cbn [ret]. rewrite for_each_app.
  apply bind_ext. intros _ w1. reflexivity.
Qed.

Lemma missing_fields_default_to_empty_witness :
  _load_config_from_file (Sample.server "hello") "bare.json" Sample.blank
  = (for_each [] (load_server (Sample.server "hello")) ;;;
     _load_models_from_api (Sample.server "hello")
       (or_empty (entries_get "api_key" [])) (or_empty (entries_get "api_url" [])) ;;;
     for_each [] (load_server (Sample.server "hello"))) Sample.blank.
Proof.
  apply (missing_fields_default_to_empty (Sample.server "hello") "bare.json"
           [("servers", PyDict [("bare", PyDict [])])] [] [] "bare" []
           Sample.blank);
    reflexivity.
Defined.

(** On the sample document whose only server has no fields, the backend is
    asked once, with two empty strings. *)
Example bare_server_is_queried :
  queried (wire (snd (_load_config_from_file (Sample.server "hello") "bare.json"
                        Sample.blank)))
  = [(PyStr "", PyStr "")].
Proof. reflexivity. Qed.

(** ** Streaming exchange *)


Section Streaming.

Variable E : Externals.

Lemma create_stream_run (w : World) (model : ModelConfig.t) (c : Client) :
  selected_model (self w) = Some model ->
  client (self w) = Some c ->
  let answer := completions_stream E (wire w) c (ModelConfig.name model)
                  (conversation_history (self w)) in
  create_stream E w
  = (match answer with
     | Ok events => Return events
     | Failed msg => Raise (APIError msg)
     end,
     mkWorld (self w) (stdout w)
             (wire w ++ [XStream c (ModelConfig.name model)
                           (conversation_history (self w)) answer])).
Proof.
  intros Hsel Hcl answer.
  unfold create_stream, bind, get_self, get_wire, record.
  rewrite Hcl, Hsel. cbn [self stdout wire]. fold answer.
  destruct answer; reflexivity.
Qed.

(** A [for] loop over a generator suspended at its [yield] receives the
    fragments of what the stream has left and ends normally. *)
Lemma drain_suspended (rest : list StreamEvent) :
  forall (w : World) (fuel : nat),
    (List.length (fragments rest) < fuel)%nat ->
    drain E fuel (GenSuspended rest) w
    = Some (fragments rest, None,
            mkWorld (self w) (stdout w ++ stream_report rest) (wire w)).
Proof.
  induction rest as [| ev rest IH]; intros w fuel Hfuel;
    (destruct fuel as [| fuel]; [lia |]).
  - cbn. rewrite app_nil_r. now destruct w.
  - destruct ev as [[| fragment choices] | msg].
    + reflexivity.
    + cbn [fragments delta List.length] in Hfuel.
      cbn [drain next stream_chat_resume in_stream_try try_except stream_loop
           first_choice bind ret suspend fragments delta stream_report].
      unfold bind, ret. cbn [suspend].
      rewrite IH by lia. reflexivity.
    + reflexivity.
Qed.

(** With a model selected and a client in place, the first [next] on a
    fresh generator appends the user message, sends the request and goes
    on as a generator suspended in front of the whole stream. *)
Lemma next_created (message : string) (w : World)
    (model : ModelConfig.t) (c : Client) :
  selected_model (self w) = Some model ->
  client (self w) = Some c ->
  let answer := completions_stream E (wire w) c (ModelConfig.name model)
                  (conversation_history (self w) ++ [user message]) in
  let w1 := mkWorld (said [user message] (self w)) (stdout w)
              (wire w ++ [XStream c (ModelConfig.name model)
                            (conversation_history (self w) ++ [user message])
                            answer]) in
  next E (GenCreated message) w
  = match answer with
    | Ok events => next E (GenSuspended events) w1
    | Failed msg =>
        (Raise StopIteration, GenClosed,
         mkWorld (self w1) (stdout w1 ++ [("API 请求失败：" ++ msg)%string]) (wire w1))
    end.
Proof.
  intros Hsel Hcl answer w1.
  cbn [next]. unfold stream_chat_start, bind at 1, get_self. rewrite Hsel.
  unfold bind at 1. rewrite history_append_run.
  unfold stream_chat_resume, in_stream_try, try_except, bind at 1.
  rewrite (create_stream_run _ model c) by assumption.
  cbn [self stdout wire said set_history conversation_history].
  fold answer. destruct answer as [events | msg]; reflexivity.
Qed.

End Streaming.




(** On the sample server the two fragments come out in arrival order. *)
Example sample_stream_drained :
  exists w',
    drain (Sample.server "hello") 3 (GenCreated "hi") (Sample.ready "hello")
    = Some ([Some "he"; Some "llo"], None, w')
    /\ conversation_history (self w') = [user "hi"].
Proof. eexists. split; reflexivity. Qed.

(** C9. With no model selected, the call of [stream_chat] does not raise
    and changes nothing: it returns the generator.  The [ValueError] comes
    out of the first request for an element, which leaves the transcript
    (and everything else) as it was and closes the generator. *)
Theorem stream_chat_defers_the_check (E : Externals) (message : string) (w : World) :
  selected_model (self w) = None ->
  stream_chat message w = (Return (GenCreated message), w) /\
  next E (GenCreated message) w
  = (Raise (ValueError "No model selected"), GenClosed, w) /\
  next E GenClosed w = (Raise StopIteration, GenClosed, w).
Proof.
  intros Hnone. split; [reflexivity |]. split; [| reflexivity].
  cbn [next]. unfold stream_chat_start, bind, get_self. rewrite Hnone.
  reflexivity.
Qed.

Lemma stream_chat_defers_the_check_witness :
  stream_chat "hi" Sample.blank = (Return (GenCreated "hi"), Sample.blank) /\
  next (Sample.server "hello") (GenCreated "hi") Sample.blank
  = (Raise (ValueError "No model selected"), GenClosed, Sample.blank) /\
  next (Sample.server "hello") GenClosed Sample.blank
  = (Raise StopIteration, GenClosed, Sample.blank).
Proof.
  apply (stream_chat_defers_the_check (Sample.server "hello") "hi" Sample.blank).
  reflexivity.
Defined.

(** The check reads the instance as it is when the first element is
    requested: a model selected between the call and that request is
    enough. *)
Example model_selected_after_the_call :
  let E := Sample.server "hello" in
  let unselected :=
    mkWorld (set_client None (set_selected None (self (Sample.ready "hello")))) [] [] in
  exists g w1 w2,
    stream_chat "hi" unselected = (Return g, w1) /\
    set_model_by_id (ByName "gpt-b") w1 = (Return tt, w2) /\
    fst (fst (next E g w2)) = Return (Some "he").
Proof. do 3 eexists. repeat split. Qed.

(** * Further properties *)

(** ** Calls and the relations they respect *)

Section Respecting.

Variable R : Self -> Self -> Prop.
Hypothesis R_refl : forall s, R s s.
Hypothesis R_trans : forall a b c, R a b -> R b c -> R a c.

Lemma respects_pure {A} (m : M A) :
  (forall w, self (snd (m w)) = self w) -> respects R m.
Proof. intros Hm w. rewrite Hm. apply R_refl. Qed.

Lemma respects_modify (f : Self -> Self) :
  (forall s, R s (f s)) -> respects R (modify_self f).
Proof. intros Hf w. apply Hf. Qed.

Lemma respects_bind {A B} (m : M A) (k : A -> M B) :
  respects R m -> (forall a, respects R (k a)) -> respects R (bind m k).
Proof.
  intros Hm Hk w. unfold bind. specialize (Hm w).
  destruct (m w) as [[a | e] w1]; cbn in Hm; [| exact Hm].
  apply (R_trans _ _ _ Hm). apply Hk.
Qed.

Lemma respects_dispatch {A} (clauses : list ((Exn -> bool) * (Exn -> M A))) :
  Forall (fun clause => forall e, respects R (snd clause e)) clauses ->
  forall e, respects R (dispatch clauses e).
Proof.
  induction 1 as [| [catches handler] others Hhandler _ IH]; intros e; cbn.
  - now apply respects_pure.
  - destruct (catches e); [apply Hhandler | apply IH].
Qed.

Lemma respects_try_except {A} (body : M A)
    (clauses : list ((Exn -> bool) * (Exn -> M A))) :
  respects R body ->
  Forall (fun clause => forall e, respects R (snd clause e)) clauses ->
  respects R (try_except body clauses).
Proof.
  intros Hbody Hclauses w. unfold try_except. specialize (Hbody w).
  destruct (body w) as [[a | e] w1]; cbn in Hbody; [exact Hbody |].
  apply (R_trans _ _ _ Hbody). now apply respects_dispatch.
Qed.

Lemma respects_for_each {A} (l : list A) (body : A -> M unit) :
  (forall x, respects R (body x)) -> respects R (for_each l body).
Proof.
  intros Hbody. induction l as [| x l IH]; cbn.
  - now apply respects_pure.
  - apply respects_bind; auto.
Qed.

Lemma respects_py_get (v : pyval) (key : string) (default : pyval) :
  respects R (py_get v key default).
Proof. destruct v; now apply respects_pure. Qed.

Lemma respects_py_items (v : pyval) : respects R (py_items v).
Proof. destruct v; now apply respects_pure. Qed.

Lemma respects_first_choice (choices : list (option string)) :
  respects R (first_choice choices).
Proof. destruct choices; now apply respects_pure. Qed.

Lemma respects_create_completion (E : Externals) (json_object : bool) :
  respects R (create_completion E json_object).
Proof.
  apply respects_pure. intros w. unfold create_completion, bind, get_self.
  destruct (client (self w)); [| reflexivity].
  destruct (selected_model (self w)); [| reflexivity].
  cbn. destruct (completions_create _ _ _ _ _ _); reflexivity.
Qed.

Lemma respects_create_stream (E : Externals) : respects R (create_stream E).
Proof.
  apply respects_pure. intros w. unfold create_stream, bind, get_self.
  destruct (client (self w)); [| reflexivity].
  destruct (selected_model (self w)); [| reflexivity].
  cbn. destruct (completions_stream _ _ _ _ _); reflexivity.
Qed.

Lemma respects_loads (E : Externals) (reply_content : option string) :
  respects R (loads E reply_content).
Proof. destruct reply_content; now apply respects_pure. Qed.

Lemma respects_stream_loop (events : list StreamEvent) :
  respects R (stream_loop events).
Proof.
  destruct events as [| [choices | msg] rest]; cbn;
    try now apply respects_pure.
  apply respects_bind; [apply respects_first_choice | intros c].
  now apply respects_pure.
Qed.

Lemma respects_reporting {A} (line : string) (a : A) :
  respects R (print line ;;; ret a).
Proof. now apply respects_pure. Qed.

Lemma respects_in_stream_try
    (code : M (option (option string * list StreamEvent))) :
  respects R code -> respects R (in_stream_try code).
Proof.
  intros Hcode. apply respects_try_except; [exact Hcode |].
  repeat constructor. intros e. apply respects_reporting.
Qed.

(** Appending entries is all the three exchanges do to the attributes. *)
Hypothesis R_append : forall s m, R s (set_history (conversation_history s ++ [m]) s).

Lemma respects_history_append (m : Message) : respects R (history_append m).
Proof. apply respects_modify. intros s. apply R_append. Qed.

Lemma respects_chat (E : Externals) (message : string) :
  respects R (chat E message).
Proof.
  unfold chat. intros w. unfold bind at 1, get_self.
  destruct (selected_model (self w)); [| apply R_refl].
  revert w. apply respects_bind; [apply respects_history_append | intros _].
  apply respects_try_except.
  - apply respects_bind; [apply respects_create_completion | intros response].
    apply respects_bind; [apply respects_first_choice | intros reply].
    apply respects_bind; [apply respects_history_append | intros _].
    now apply respects_pure.
  - repeat constructor. intros e. apply respects_reporting.
Qed.

Lemma respects_json_chat (E : Externals) (message : string) :
  respects R (json_chat E message).
Proof.
  unfold json_chat. intros w. unfold bind at 1, get_self.
  destruct (selected_model (self w)); [| apply R_refl].
  revert w. apply respects_bind; [apply respects_history_append | intros _].
  apply respects_try_except.
  - apply respects_bind; [apply respects_create_completion | intros response].
    apply respects_bind; [apply respects_first_choice | intros reply].
    apply respects_bind; [apply respects_history_append | intros _].
    apply respects_loads.
  - repeat constructor; intros e; apply respects_reporting.
Qed.

Lemma respects_stream_chat_start (E : Externals) (message : string) :
  respects R (stream_chat_start E message).
Proof.
  unfold stream_chat_start. intros w. unfold bind at 1, get_self.
  destruct (selected_model (self w)); [| apply R_refl].
  revert w. apply respects_bind; [apply respects_history_append | intros _].
  apply respects_in_stream_try.
  apply respects_bind; [apply respects_create_stream | intros events].
  apply respects_stream_loop.
Qed.

Lemma respects_next (E : Externals) (g : Generator) (w : World) :
  R (self w) (self (snd (next E g w))).
Proof.
  destruct g as [message | rest |]; cbn [next].
  - pose proof (respects_stream_chat_start E message w) as H.
    destruct (stream_chat_start E message w). exact H.
  - pose proof (respects_in_stream_try _ (respects_stream_loop rest) w) as H.
    unfold stream_chat_resume. destruct (in_stream_try _ w). exact H.
  - apply R_refl.
Qed.

End Respecting.

Section RespectingLoaders.

Variable R : Self -> Self -> Prop.
Hypothesis R_refl : forall s, R s s.
Hypothesis R_trans : forall a b c, R a b -> R b c -> R a c.
Hypothesis R_config : forall s c, R s (set_config c s).
Hypothesis R_client : forall s c, R s (set_client (Some c) s).

Variable E : Externals.

Lemma respects_load_models (api_key base_url : pyval) :
  respects R (_load_models_from_api E api_key base_url).
Proof.
  unfold _load_models_from_api.
  apply respects_bind; auto; [now apply respects_pure | intros seen].
  apply respects_bind; auto; [now apply respects_pure | intros _].
  apply respects_bind; auto.
  - apply respects_for_each; auto. intros model. apply respects_modify.
    intros s. apply R_config.
  - intros _. destruct (list_fault _); now apply respects_pure.
Qed.

Lemma respects_load_file (config_path : string) :
  respects R (_load_config_from_file E config_path).
Proof.
  unfold _load_config_from_file.
  apply respects_bind; auto.
  { apply respects_try_except; auto; [now apply respects_pure |].
    repeat constructor; intros e; now apply respects_pure. }
  intros config. apply respects_bind; auto; [now apply respects_py_get | intros servers].
  apply respects_bind; auto.
  { destruct (negb (truthy servers)); now apply respects_pure. }
  intros _. apply respects_bind; auto; [now apply respects_py_items | intros items].
  apply respects_for_each; auto. intros [server_name server_data]. cbn.
  apply respects_bind; auto; [now apply respects_py_get | intros api_key].
  apply respects_bind; auto; [now apply respects_py_get | intros api_url].
  apply respects_load_models.
Qed.

Lemma respects_load_env : respects R (_load_config_from_env E).
Proof.
  unfold _load_config_from_env.
  apply respects_bind; auto.
  { destruct (_ || _); now apply respects_pure. }
  intros _. apply respects_bind; auto.
  { unfold new_client. destruct (constructor_fault _ _ _); now apply respects_pure. }
  intros c. apply respects_bind; auto.
  - apply respects_modify. intros s. apply R_client.
  - intros _. apply respects_load_models.
Qed.

Lemma respects_resolve (r : Resolution) : respects R (resolve E r).
Proof.
  destruct r; cbn;
    [apply respects_load_file | apply respects_load_env | apply respects_load_models].
Qed.

End RespectingLoaders.

(** [set_model_by_id] either binds the first descriptor its argument
    identifies and returns, or raises and changes nothing. *)
Lemma set_model_outcome (i : Identifier) (w : World) :
  (exists model,
     In model (dict_values (config (self w))) /\
     identifies i model = true /\
     set_model_by_id i w
     = (Return tt,
        mkWorld (set_client (Some (OpenAI (ModelConfig.api_key model)
                                          (ModelConfig.url model)))
                   (set_selected (Some model) (self w)))
                (stdout w) (wire w)))
  \/ (exists e, set_model_by_id i w = (Raise e, w)).
Proof.
  unfold set_model_by_id, bind, get_self.
  induction (dict_values (config (self w))) as [| m models IH].
  - right. eexists. reflexivity.
  - cbn [scan_models]. destruct (identifies i m) eqn:Hm.
    + left. exists m. repeat split; auto. now left.
    + destruct IH as [[model [Hin [Hmodel Hrun]]] | [e Hrun]].
      * left. exists model. repeat split; auto. now right.
      * right. exists e. exact Hrun.
Qed.

Lemma set_model_keeps_client (i : Identifier) :
  respects keeps_client (set_model_by_id i).
Proof.
  intros w. destruct (set_model_outcome i w) as [[model [_ [_ Hrun]]] | [e Hrun]];
    rewrite Hrun; unfold keeps_client, has_client_if_selected; cbn.
  - intros _ _. discriminate.
  - auto.
Qed.

Lemma set_model_keeps_transcript (i : Identifier) (w : World) :
  conversation_history (self (snd (set_model_by_id i w)))
  = conversation_history (self w)
  /\ config (self (snd (set_model_by_id i w))) = config (self w).
Proof.
  destruct (set_model_outcome i w) as [[model [_ [_ Hrun]]] | [e Hrun]];
    rewrite Hrun; now split.
Qed.

Lemma same_setup_refl (s : Self) : same_setup s s.
Proof. now repeat split. Qed.

Lemma same_setup_trans (a b c : Self) :
  same_setup a b -> same_setup b c -> same_setup a c.
Proof.
  intros [H1 [H2 H3]] [H4 [H5 H6]]. repeat split; congruence.
Qed.

Lemma same_talk_refl (s : Self) : same_talk s s.
Proof. now split. Qed.

Lemma same_talk_trans (a b c : Self) :
  same_talk a b -> same_talk b c -> same_talk a c.
Proof. intros [H1 H2] [H3 H4]. split; congruence. Qed.

Lemma transcript_grows_refl (s : Self) : transcript_grows s s.
Proof. exists []. now rewrite app_nil_r. Qed.

Lemma transcript_grows_trans (a b c : Self) :
  transcript_grows a b -> transcript_grows b c -> transcript_grows a c.
Proof.
  intros [x Hx] [y Hy]. exists (x ++ y). now rewrite Hy, Hx, app_assoc.
Qed.

Lemma keeps_client_refl (s : Self) : keeps_client s s.
Proof. intros H. exact H. Qed.

Lemma keeps_client_trans (a b c : Self) :
  keeps_client a b -> keeps_client b c -> keeps_client a c.
Proof. unfold keeps_client. auto. Qed.

(** ** What the calls never change *)

Lemma append_keeps_setup (s : Self) (m : Message) :
  same_setup s (set_history (conversation_history s ++ [m]) s).
Proof. now repeat split. Qed.

Lemma append_grows (s : Self) (m : Message) :
  transcript_grows s (set_history (conversation_history s ++ [m]) s).
Proof. now exists [m]. Qed.

(** X1. The exchanges ([chat], [json_chat], [stream_chat] and [next] on
    its generator), the transcript operations ([chat_cleanup],
    [append_history], [set_system_prompt]) and the getters never change the
    table, the selected model or the client, whatever the backend does. *)
Theorem talking_keeps_setup (E : Externals) (c : Call) (w : World) :
  talks c = true ->
  same_setup (self w) (self (after E c w)).
Proof.
  destruct c; cbn [talks after]; intros Htalks; try discriminate;
    try apply same_setup_refl.
  - apply (respects_chat same_setup same_setup_refl same_setup_trans
             append_keeps_setup).
  - apply (respects_json_chat same_setup same_setup_refl same_setup_trans
             append_keeps_setup).
  - apply (respects_next same_setup same_setup_refl same_setup_trans
             append_keeps_setup).
  - now repeat split.
  - apply append_keeps_setup.
  - apply append_keeps_setup.
Qed.

Lemma talking_keeps_setup_witness :
  same_setup (self (Sample.ready "hello"))
             (self (after (Sample.server "hello") (CallJsonChat "hi")
                      (Sample.ready "hello"))).
Proof.
  apply (talking_keeps_setup (Sample.server "hello") (CallJsonChat "hi")
           (Sample.ready "hello")).
  reflexivity.
Defined.

(** X2. The transcript is append-only: every call other than
    [chat_cleanup] leaves the entries it found in place and in order, and
    at most adds entries after them. *)
Theorem transcript_only_grows (E : Externals) (c : Call) (w : World) :
  c <> CallCleanup ->
  transcript_grows (self w) (self (after E c w)).
Proof.
  destruct c; cbn [after]; intros Hc; try apply transcript_grows_refl.
  - exists []. rewrite app_nil_r. apply set_model_keeps_transcript.
  - apply (respects_chat transcript_grows transcript_grows_refl
             transcript_grows_trans append_grows).
  - apply (respects_json_chat transcript_grows transcript_grows_refl
             transcript_grows_trans append_grows).
  - apply (respects_next transcript_grows transcript_grows_refl
             transcript_grows_trans append_grows).
  - congruence.
  - apply append_grows.
  - apply append_grows.
  - apply (respects_resolve transcript_grows transcript_grows_refl
             transcript_grows_trans);
      intros s x; exists []; now rewrite app_nil_r.
Qed.

Lemma transcript_only_grows_witness :
  transcript_grows (self (Sample.ready "hello"))
                   (self (after (Sample.server "hello") (CallChat "hi")
                            (Sample.ready "hello"))).
Proof.
  apply (transcript_only_grows (Sample.server "hello") (CallChat "hi")
           (Sample.ready "hello")).
  discriminate.
Defined.

(** X3. Resolution, by file, environment or a single discovery call and
    whatever its outcome, never touches the transcript or the selected
    model: a model selected before stays selected, also when the table
    grows under it. *)
Theorem resolving_keeps_talk (E : Externals) (r : Resolution) (w : World) :
  same_talk (self w) (self (snd (resolve E r w))).
Proof.
  apply (respects_resolve same_talk same_talk_refl same_talk_trans);
    intros s x; now split.
Qed.

Lemma call_keeps_client (E : Externals) (c : Call) (w : World) :
  keeps_client (self w) (self (after E c w)).
Proof.
  assert (Htalk : talks c = true -> keeps_client (self w) (self (after E c w))).
  { intros Htalks. unfold keeps_client, has_client_if_selected.
    assert (Hsame : same_setup (self w) (self (after E c w))).
    { destruct c; cbn [talks after] in *; try discriminate;
        try apply same_setup_refl;
        try apply append_keeps_setup; try (now repeat split).
      - apply (respects_chat same_setup same_setup_refl same_setup_trans
                 append_keeps_setup).
      - apply (respects_json_chat same_setup same_setup_refl same_setup_trans
                 append_keeps_setup).
      - apply (respects_next same_setup same_setup_refl same_setup_trans
                 append_keeps_setup). }
    destruct Hsame as [_ [Hsel Hcl]]. rewrite Hsel, Hcl. auto. }
  destruct c; try (apply Htalk; reflexivity).
  - apply set_model_keeps_client.
  - cbn [after].
    apply (respects_resolve keeps_client keeps_client_refl keeps_client_trans);
      intros s x; unfold keeps_client, has_client_if_selected; cbn; auto.
    intros _ _. discriminate.
Qed.

Lemma init_has_client (E : Externals) (config_path : option string) (w : World) :
  has_client_if_selected (self (snd (__init__ E config_path w))).
Proof.
  unfold __init__, bind at 1, modify_self.
  match goal with
  | |- context [bind ?m ?k ?w0] =>
      assert (Hrest : respects keeps_client (bind m k));
        [| apply (Hrest w0); intros Hsel; now contradiction Hsel]
  end.
  apply (respects_bind keeps_client keeps_client_trans).
  - match goal with
    | |- respects _ (if ?b then _ else _) => destruct b
    end.
    + apply (respects_load_file keeps_client keeps_client_refl keeps_client_trans);
        intros s x; unfold keeps_client, has_client_if_selected; cbn; auto.
    + apply (respects_load_env keeps_client keeps_client_refl keeps_client_trans);
        intros s x; unfold keeps_client, has_client_if_selected; cbn; auto.
      intros _ _. discriminate.
  - intros _. apply (respects_bind keeps_client keeps_client_trans).
    + now apply (respects_pure keeps_client keeps_client_refl).
    + intros s. destruct (config s).
      * now apply (respects_pure keeps_client keeps_client_refl).
      * apply set_model_keeps_client.
Qed.

(** X4. In every state an instance reaches, by construction followed by
    any series of calls with any outcomes, a selected model comes with a
    client: [chat], [json_chat] and [stream_chat] never find
    [self.client] to be [None] once they are past their check. *)
Theorem selected_model_has_client (E : Externals) (config_path : option string)
    (calls : list Call) (w : World) :
  has_client_if_selected
    (self (after_all E calls (snd (__init__ E config_path w)))).
Proof.
  unfold after_all.
  generalize (init_has_client E config_path w).
  generalize (snd (__init__ E config_path w)). clear w.
  induction calls as [| c calls IH]; intros w Hw; cbn [fold_left].
  - exact Hw.
  - apply IH. now apply (call_keeps_client E c w).
Qed.

(** ** Loading: fatal and ill-shaped configurations *)

Lemma malformed_file_exits_witness :
  _load_config_from_file (Sample.server "hello") "broken.json" Sample.blank
  = (Raise (SystemExit 1),
     mkWorld (self Sample.blank)
             (stdout Sample.blank ++ ["错误：配置文件格式不正确"%string])
             (wire Sample.blank)).
Proof.
  apply (malformed_file_exits (Sample.server "hello") "broken.json" Sample.blank
           "Expecting value: line 1 column 1 (char 0)").
  reflexivity.
Defined.

Lemma no_servers_exits_witness :
  _load_config_from_file Scenario.usual "none.json" Sample.blank
  = (Raise (SystemExit 1),
     mkWorld (self Sample.blank)
             (stdout Sample.blank ++ ["错误：配置文件中未定义任何服务端"%string])
             (wire Sample.blank)).
Proof.
  apply (no_servers_exits Scenario.usual "none.json" Sample.blank [] (PyDict []));
    reflexivity.
Defined.

(** X7. A document that parses but is not a mapping (a list, a string, a
    number) is not reported as malformed: [config.get] raises
    [AttributeError], nothing is printed and no backend is contacted. *)
Theorem document_not_a_mapping (E : Externals) (config_path : string)
    (doc : pyval) (w : World) :
  read_json E config_path = Return doc ->
  (forall entries, doc <> PyDict entries) ->
  _load_config_from_file E config_path w
  = (Raise (no_attribute doc "get"), w).
Proof.
  intros Hread Hshape. unfold _load_config_from_file, bind, try_except.
  rewrite Hread. destruct doc; try reflexivity.
  now contradiction (Hshape entries).
Qed.

Lemma document_not_a_mapping_witness :
  _load_config_from_file Scenario.usual "array.json" Sample.blank
  = (Raise (no_attribute Scenario.array_document "get"), Sample.blank).
Proof.
  apply (document_not_a_mapping Scenario.usual "array.json"
           Scenario.array_document Sample.blank).
  - reflexivity.
  - discriminate.
Defined.

(** X8. When ["servers"] holds a non-empty value that is not a mapping
    (for instance a list of server objects), the loader gets past its
    emptiness check and fails on [.items()] with [AttributeError]: nothing
    is printed and no server is queried. *)
Theorem servers_not_a_mapping (E : Externals) (config_path : string)
    (entries : list (string * pyval)) (servers : pyval) (w : World) :
  read_json E config_path = Return (PyDict entries) ->
  entries_get "servers" entries = Some servers ->
  truthy servers = true ->
  (forall items, servers <> PyDict items) ->
  _load_config_from_file E config_path w
  = (Raise (no_attribute servers "items"), w).
Proof.
  intros Hread Hservers Htruthy Hshape.
  unfold _load_config_from_file, bind, try_except.
  rewrite Hread. cbn [py_get ret]. rewrite Hservers, Htruthy. cbn [negb].
  destruct servers; try reflexivity.
  now contradiction (Hshape entries0).
Qed.

Lemma servers_not_a_mapping_witness :
  _load_config_from_file Scenario.usual "listed.json" Sample.blank
  = (Raise (no_attribute
              (PyList [PyDict [("api_key", Sample.key); ("api_url", Sample.url)]])
              "items"),
     Sample.blank).
Proof.
  apply (servers_not_a_mapping Scenario.usual "listed.json"
           [("servers",
             PyList [PyDict [("api_key", Sample.key); ("api_url", Sample.url)]])]
           (PyList [PyDict [("api_key", Sample.key); ("api_url", Sample.url)]])
           Sample.blank).
  - reflexivity.
  - reflexivity.
  - reflexivity.
  - discriminate.
Defined.

(** One discovery call on any table: the exchange goes on the wire, only
    the table changes, and the call raises exactly when the listing
    fails. *)
Lemma load_models_run (E : Externals) (api_key base_url : pyval) (w : World) :
  let answer := models_list E (wire w) api_key base_url in
  exists table,
    _load_models_from_api E api_key base_url w
    = (match list_fault answer with
       | Some msg => Raise (APIError msg)
       | None => Return tt
       end,
       mkWorld (set_config table (self w)) (stdout w)
               (wire w ++ [XModels api_key base_url answer])).
Proof.
  intros answer.
  unfold _load_models_from_api, bind at 1, get_wire.
  unfold bind at 1, record. unfold bind at 1. fold answer.
  set (w1 := mkWorld (self w) (stdout w) _).
  assert (Hloop : forall models w0, exists table,
             for_each models (add_model api_key base_url) w0
             = (Return tt, mkWorld (set_config table (self w0)) (stdout w0) (wire w0))).
  { induction models as [| m models IH]; intros w0.
    - exists (config (self w0)). now destruct w0 as [[] ? ?].
    - cbn [for_each]. unfold bind, add_model at 1, modify_self.
      match goal with
      | |- context [for_each models _ ?w2] => destruct (IH w2) as [table Hs]
      end.
      rewrite Hs. exists table. reflexivity. }
  destruct (Hloop (listed answer) w1) as [table Hs].
  rewrite Hs. exists table. destruct (list_fault answer); reflexivity.
Qed.

(** On a document with servers, the loader is its loop. *)
Lemma load_file_on_servers (E : Externals) (config_path : string)
    (entries servers : list (string * pyval)) (w : World) :
  read_json E config_path = Return (PyDict entries) ->
  entries_get "servers" entries = Some (PyDict servers) ->
  servers <> [] ->
  _load_config_from_file E config_path w = for_each servers (load_server E) w.
Proof.
  intros Hread Hservers Hsome.
  unfold _load_config_from_file, bind at 1, try_except. rewrite Hread.
  unfold bind at 1. cbn [py_get ret]. rewrite Hservers.
  destruct servers as [| server servers]; [congruence |].
  reflexivity.
Qed.

(** X9. The loader is fail-fast: when the listing of one server fails,
    the [APIError] leaves [_load_config_from_file] at once.  The failed
    exchange is the last one on the wire: the servers that follow in the
    document are never queried. *)
Theorem discovery_failure_stops_the_loader (E : Externals) (config_path : string)
    (entries : list (string * pyval))
    (before after : list (string * pyval))
    (server_name : string) (fields : list (string * pyval))
    (w w1 : World) (msg : string) :
  read_json E config_path = Return (PyDict entries) ->
  entries_get "servers" entries
  = Some (PyDict (before ++ (server_name, PyDict fields) :: after)) ->
  for_each before (load_server E) w = (Return tt, w1) ->
  let api_key := or_empty (entries_get "api_key" fields) in
  let api_url := or_empty (entries_get "api_url" fields) in
  let answer := models_list E (wire w1) api_key api_url in
  list_fault answer = Some msg ->
  fst (_load_config_from_file E config_path w) = Raise (APIError msg) /\
  wire (snd (_load_config_from_file E config_path w))
  = wire w1 ++ [XModels api_key api_url answer].
Proof.
  intros Hread Hservers Hbefore api_key api_url answer Hfault.
  destruct (load_models_run E api_key api_url w1) as [table Hrun].
  fold answer in Hrun. rewrite Hfault in Hrun.
  assert (Hfile : _load_config_from_file E config_path w
                  = (Raise (APIError msg),
                     mkWorld (set_config table (self w1)) (stdout w1)
                             (wire w1 ++ [XModels api_key api_url answer]))).
  { rewrite (load_file_on_servers E config_path entries _ w Hread Hservers)
      by now destruct before.
    rewrite for_each_app. unfold bind at 1. rewrite Hbefore.
    cbn [for_each]. unfold bind at 1.
    change (load_server E (server_name, PyDict fields) w1)
      with (_load_models_from_api E api_key api_url w1).
    now rewrite Hrun. }
  rewrite Hfile. split; reflexivity.
Qed.

Lemma discovery_failure_stops_the_loader_witness :
  let E := Scenario.usual in
  let first := ("first", PyDict [("api_key", Sample.key); ("api_url", Sample.url)]) in
  let w1 := snd (for_each [first] (load_server E) Sample.blank) in
  let answer := models_list E (wire w1) Sample.key Scenario.down_url in
  fst (_load_config_from_file E "three.json" Sample.blank)
  = Raise (APIError "Connection error.") /\
  wire (snd (_load_config_from_file E "three.json" Sample.blank))
  = wire w1 ++ [XModels Sample.key Scenario.down_url answer].
Proof.
  apply (discovery_failure_stops_the_loader Scenario.usual "three.json"
           [("servers",
             PyDict [("first", PyDict [("api_key", Sample.key); ("api_url", Sample.url)]);
                     ("second", PyDict [("api_key", Sample.key);
                                        ("api_url", Scenario.down_url)]);
                     ("third", PyDict [("api_key", Sample.key); ("api_url", Sample.url)])])]
           [("first", PyDict [("api_key", Sample.key); ("api_url", Sample.url)])]
           [("third", PyDict [("api_key", Sample.key); ("api_url", Sample.url)])]
           "second" [("api_key", Sample.key); ("api_url", Scenario.down_url)]
           Sample.blank
           (snd (for_each [("first", PyDict [("api_key", Sample.key);
                                             ("api_url", Sample.url)])]
                   (load_server Scenario.usual) Sample.blank))
           "Connection error.");
    reflexivity.
Defined.

(** X10. A listing that fails part-way is not rolled back: the models it
    yielded before failing are in the table, under the next identifiers,
    when the [APIError] leaves [_load_models_from_api]. *)
Theorem failed_listing_keeps_what_it_listed (E : Externals)
    (api_key base_url : pyval) (w : World) (msg : string) :
  contiguous (config (self w)) ->
  let answer := models_list E (wire w) api_key base_url in
  list_fault answer = Some msg ->
  fst (_load_models_from_api E api_key base_url w) = Raise (APIError msg) /\
  config (self (snd (_load_models_from_api E api_key base_url w)))
  = config (self w)
    ++ enumerate (len (config (self w)) + 1)
         (map (fun model => (api_key, base_url, model)) (listed answer)).
Proof.
  intros Hw answer Hfault.
  rewrite (load_models_spec E api_key base_url w Hw). fold answer.
  rewrite Hfault. now split.
Qed.

Lemma failed_listing_keeps_what_it_listed_witness :
  let E := Scenario.usual in
  let w := Sample.ready "hello" in
  let answer := models_list E (wire w) Sample.key Scenario.down_url in
  fst (_load_models_from_api E Sample.key Scenario.down_url w)
  = Raise (APIError "Connection error.") /\
  config (self (snd (_load_models_from_api E Sample.key Scenario.down_url w)))
  = config (self w)
    ++ enumerate (len (config (self w)) + 1)
         (map (fun model => (Sample.key, Scenario.down_url, model)) (listed answer)).
Proof.
  apply (failed_listing_keeps_what_it_listed Scenario.usual Sample.key
           Scenario.down_url (Sample.ready "hello") "Connection error.");
    reflexivity.
Defined.

(** ** Loading from the environment *)

(** X11. When [API_KEY] or [BASE_URL] is missing from the environment or
    is the empty string, [_load_config_from_env] prints the error and
    raises [SystemExit] with status 1: no client is built and no backend
    is contacted. *)
Theorem env_incomplete_exits (E : Externals) (w : World) :
  unset (getenv E "API_KEY") \/ unset (getenv E "BASE_URL") ->
  _load_config_from_env E w
  = (Raise (SystemExit 1),
     mkWorld (self w)
             (stdout w ++ ["错误：环境变量中未设置 API_KEY 或 BASE_URL"%string])
             (wire w)).
Proof.
  intros Hunset. unfold _load_config_from_env.
  assert (Hcheck : negb (truthy (py_of_optional (getenv E "API_KEY")))
                   || negb (truthy (py_of_optional (getenv E "BASE_URL"))) = true).
  { apply orb_true_iff.
    destruct Hunset as [[H | H] | [H | H]]; rewrite H; auto. }
  unfold bind at 1. rewrite Hcheck. reflexivity.
Qed.

Lemma env_incomplete_exits_witness :
  _load_config_from_env
    (Scenario.backend Scenario.no_environment [] []) Sample.blank
  = (Raise (SystemExit 1),
     mkWorld (self Sample.blank)
             (stdout Sample.blank
              ++ ["错误：环境变量中未设置 API_KEY 或 BASE_URL"%string])
             (wire Sample.blank)).
Proof.
  apply (env_incomplete_exits (Scenario.backend Scenario.no_environment [] [])
           Sample.blank).
  right. left. reflexivity.
Defined.

(** X12. With both variables set and non-empty, [_load_config_from_env]
    first builds a client for the environment's key and URL.  When the
    constructor refuses them, its exception leaves the loader with nothing
    changed: no client is assigned and no discovery call is made.
    Otherwise the client is replaced before, and whatever the outcome of,
    the one discovery call the loader then makes with the same key and
    URL: the models the backend lists go into the table under the next
    identifiers; the selected model and the transcript stay as they
    are. *)
Theorem env_binds_client_then_discovers (E : Externals) (key url : string)
    (w : World) :
  contiguous (config (self w)) ->
  getenv E "API_KEY" = Some key -> key <> ""%string ->
  getenv E "BASE_URL" = Some url -> url <> ""%string ->
  let answer := models_list E (wire w) (PyStr key) (PyStr url) in
  _load_config_from_env E w
  = match constructor_fault E (PyStr key) (PyStr url) with
    | Some e => (Raise e, w)
    | None =>
        (match list_fault answer with
         | Some msg => Raise (APIError msg)
         | None => Return tt
         end,
         with_found (returned (XModels (PyStr key) (PyStr url) answer))
           (mkWorld (set_client (Some (OpenAI (PyStr key) (PyStr url))) (self w))
                    (stdout w)
                    (wire w ++ [XModels (PyStr key) (PyStr url) answer])))
    end.
Proof.
  intros Hw Hkey Hkey' Hurl Hurl' answer.
  unfold _load_config_from_env. rewrite Hkey, Hurl. cbn [py_of_optional truthy].
  apply String.eqb_neq in Hkey', Hurl'. rewrite Hkey', Hurl'. cbn [negb orb].
  unfold bind at 1. cbn [ret]. unfold bind at 1, new_client.
  destruct (constructor_fault E (PyStr key) (PyStr url)) as [e |];
    [reflexivity |].
  cbn [ret]. unfold bind at 1, modify_self.
  match goal with
  | |- context [_load_models_from_api E ?k ?u ?w0] =>
      rewrite (load_models_spec E k u w0 Hw)
  end.
  reflexivity.
Qed.

Lemma env_binds_client_then_discovers_witness :
  let E := Sample.server "hello" in
  let w := Sample.blank in
  let key := PyStr "sk-test" in
  let url := PyStr "https://llm.example/v1" in
  let answer := models_list E (wire w) key url in
  _load_config_from_env E w
  = match constructor_fault E key url with
    | Some e => (Raise e, w)
    | None =>
        (match list_fault answer with
         | Some msg => Raise (APIError msg)
         | None => Return tt
         end,
         with_found (returned (XModels key url answer))
           (mkWorld (set_client (Some (OpenAI key url)) (self w))
                    (stdout w)
                    (wire w ++ [XModels key url answer])))
    end.
Proof.
  apply (env_binds_client_then_discovers (Sample.server "hello") "sk-test"
           "https://llm.example/v1" Sample.blank);
    (reflexivity || discriminate).
Defined.

(** With a [BASE_URL] the constructor refuses, the loader raises the
    constructor's exception: the client stays [None] and the backend is
    not asked. *)
Example refused_url_leaves_no_client :
  _load_config_from_env Scenario.picky Sample.blank
  = (Raise (OtherError "Invalid port: 'abc'"), Sample.blank)
  /\ fst (__init__ Scenario.picky None Sample.blank)
     = Raise (OtherError "Invalid port: 'abc'")
  /\ client (self (snd (__init__ Scenario.picky None Sample.blank))) = None
  /\ wire (snd (__init__ Scenario.picky None Sample.blank)) = [].
Proof. repeat split. Qed.

(** ** Construction *)

(** [__init__] is its loader on fresh attributes, followed, when the loader
    returned and found a model, by the selection of the first entry. *)
Lemma init_run (E : Externals) (config_path : option string) (w : World) :
  __init__ E config_path w
  = match resolve E (first_resolution config_path) (constructing w) with
    | (Raise e, w1) => (Raise e, w1)
    | (Return _, w1) =>
        (Return tt,
         match config (self w1) with
         | [] => w1
         | (_, model) :: _ => selecting model w1
         end)
    end
  /\ (forall w1 k model rest,
        snd (resolve E (first_resolution config_path) (constructing w)) = w1 ->
        config (self w1) = (k, model) :: rest ->
        k = 1%Z /\ ModelConfig.id model = 1%Z).
Proof.
  set (r := first_resolution config_path).
  assert (Hloader : forall w0,
             (if truthy (py_of_optional config_path)
              then _load_config_from_file E
                     (match config_path with Some p => p | None => ""%string end)
              else _load_config_from_env E) w0
             = resolve E r w0).
  { intros w0. subst r. destruct config_path as [path |]; cbn; [| reflexivity].
    destruct (String.eqb path ""); reflexivity. }
  assert (Hfirst : forall w1 k model rest,
             snd (resolve E r (constructing w)) = w1 ->
             config (self w1) = (k, model) :: rest ->
             k = 1%Z /\ ModelConfig.id model = 1%Z).
  { intros w1 k model rest Hw1 Hconfig.
    destruct (additive_resolve E r (constructing w)) as [traffic [_ Htable]];
      [reflexivity |].
    rewrite Hw1, Hconfig in Htable. cbn in Htable.
    destruct (discovered traffic) as [| [[a b] m] found]; [discriminate |].
    cbn in Htable. inversion Htable; subst. now split. }
  split; [| exact Hfirst].
  unfold __init__, bind at 1, modify_self. fold (constructing w).
  unfold bind at 1. rewrite Hloader.
  destruct (resolve E r (constructing w)) as [[[] | e] w1] eqn:Hrun;
    [| reflexivity].
  unfold bind, get_self.
  destruct (config (self w1)) as [| [k model] rest] eqn:Hconfig; [reflexivity |].
  destruct (Hfirst w1 k model rest eq_refl Hconfig) as [-> Hid].
  unfold set_model_by_id, bind, get_self. rewrite Hconfig.
  cbn [dict_values map snd scan_models identifies]. rewrite Hid. reflexivity.
Qed.

(** X13. Construction starts from an empty table: whatever its outcome
    and whatever the instance held before, [__init__] leaves a table that
    holds exactly the models its own discovery calls returned, that is
    the models the backend listed for the servers its loader asked, the
    i-th under identifier i. *)
Lemma init_table (E : Externals) (config_path : option string) (w : World) :
  let traffic := resolution_traffic E (first_resolution config_path) (wire w) in
  wire (snd (__init__ E config_path w)) = wire w ++ traffic /\
  config (self (snd (__init__ E config_path w)))
  = enumerate 1 (discovered traffic).
Proof.
  intros traffic.
  destruct (init_run E config_path w) as [Hrun _].
  destruct (resolve_traffic E (first_resolution config_path) (constructing w))
    as [Hwire Hconfig]; [reflexivity |].
  cbn [constructing self wire config] in Hwire, Hconfig.
  fold traffic in Hwire, Hconfig. cbn in Hconfig.
  rewrite Hrun.
  destruct (resolve E (first_resolution config_path) (constructing w))
    as [[[] | e] w1]; cbn [snd] in *; [| now split].
  destruct (config (self w1)) as [| [k model] rest] eqn:Hw1.
  - split; [exact Hwire | now rewrite Hw1].
  - split; [exact Hwire |].
    cbn [selecting self config set_client set_selected]. now rewrite Hw1.
Qed.

(** X14. When [__init__] returns, the transcript is empty; if no model
    was discovered none is selected, and otherwise the selected model is
    the first entry of the table, which has identifier 1, with the client
    built from that entry's key and URL. *)
Theorem construction_selects_first (E : Externals) (config_path : option string)
    (w w' : World) :
  __init__ E config_path w = (Return tt, w') ->
  conversation_history (self w') = [] /\
  match config (self w') with
  | [] => selected_model (self w') = None
  | (k, model) :: _ =>
      k = 1%Z /\ ModelConfig.id model = 1%Z /\
      selected_model (self w') = Some model /\
      client (self w')
      = Some (OpenAI (ModelConfig.api_key model) (ModelConfig.url model))
  end.
Proof.
  intros Hinit. destruct (init_run E config_path w) as [Hrun Hfirst].
  rewrite Hrun in Hinit. clear Hrun.
  assert (Htalk : same_talk (self (constructing w))
                    (self (snd (resolve E (first_resolution config_path)
                                  (constructing w))))).
  { apply (respects_resolve same_talk same_talk_refl same_talk_trans);
      intros s x; now split. }
  destruct Htalk as [Hhistory Hselected].
  destruct (resolve E (first_resolution config_path) (constructing w))
    as [[[] | e] w1]; [| discriminate].
  cbn [snd] in *. inversion Hinit as [Hw']. clear Hinit.
  destruct (config (self w1)) as [| [k model] rest] eqn:Hconfig.
  - subst w'. rewrite Hconfig. now split.
  - destruct (Hfirst w1 k model rest eq_refl Hconfig) as [-> Hid].
    subst w'. cbn. rewrite Hconfig. repeat split; auto.
Qed.

Lemma construction_selects_first_witness :
  let w' := snd (__init__ (Sample.server "hello") (Some "config.json")
                   Sample.blank) in
  conversation_history (self w') = [] /\
  match config (self w') with
  | [] => selected_model (self w') = None
  | (k, model) :: _ =>
      k = 1%Z /\ ModelConfig.id model = 1%Z /\
      selected_model (self w') = Some model /\
      client (self w')
      = Some (OpenAI (ModelConfig.api_key model) (ModelConfig.url model))
  end.
Proof.
  apply (construction_selects_first (Sample.server "hello") (Some "config.json")
           Sample.blank).
  reflexivity.
Defined.

(** X15. Construction fails only when resolution does: [__init__] returns
    or raises exactly as the loader it runs on fresh attributes (the file
    loader for a non-empty path, the environment loader for [None] or the
    empty path).  The default selection [set_model_by_id(1)] never
    raises. *)
Theorem construction_fails_only_by_resolution (E : Externals)
    (config_path : option string) (w : World) :
  fst (__init__ E config_path w)
  = fst (resolve E (first_resolution config_path) (constructing w)).
Proof.
  destruct (init_run E config_path w) as [Hrun _]. rewrite Hrun.
  destruct (resolve E (first_resolution config_path) (constructing w))
    as [[[] | e] w1]; reflexivity.
Qed.

(** ** Selecting and listing models *)

(** X16. [set_model_by_id] is first-match-wins in table order: the first
    entry whose identifier or name equals the argument becomes the
    selected model and the client is rebuilt from its key and URL; later
    entries with the same name are never reached.  The transcript, the
    table, the output and the traffic are untouched. *)
Theorem set_model_binds_first_match (i : Identifier) (w : World)
    (skipped rest : list (Z * ModelConfig.t)) (entry : Z * ModelConfig.t) :
  config (self w) = skipped ++ entry :: rest ->
  (forall e, In e skipped -> identifies i (snd e) = false) ->
  identifies i (snd entry) = true ->
  set_model_by_id i w = (Return tt, selecting (snd entry) w).
Proof.
  intros Hconfig Hskipped Hentry.
  unfold set_model_by_id, bind, get_self. rewrite Hconfig. clear Hconfig.
  induction skipped as [| e skipped IH]; cbn [app dict_values map scan_models].
  - rewrite Hentry. reflexivity.
  - rewrite (Hskipped e) by now left.
    apply IH. intros e' He'. apply Hskipped. now right.
Qed.

Lemma set_model_binds_first_match_witness :
  set_model_by_id (ByName "gpt-b") (Sample.ready "hello")
  = (Return tt,
     selecting (ModelConfig.mk "gpt-b" 2 "acme" Sample.url Sample.key)
               (Sample.ready "hello")).
Proof.
  apply (set_model_binds_first_match (ByName "gpt-b") (Sample.ready "hello")
           [(1%Z, ModelConfig.mk "gpt-a" 1 "acme" Sample.url Sample.key)]
           []
           (2%Z, ModelConfig.mk "gpt-b" 2 "acme" Sample.url Sample.key)).
  - reflexivity.
  - intros e [<- | []]. reflexivity.
  - reflexivity.
Defined.

Lemma scan_enumerated (k : Z) (model : ModelConfig.t) (w : World)
    (found : list (pyval * pyval * RemoteModel)) :
  forall start,
    dict_lookup k (enumerate start found) = Some model ->
    scan_models (ById k) (dict_values (enumerate start found)) w
    = (Return tt, selecting model w).
Proof.
  induction found as [| [[a b] m] found IH]; intros start Hlookup.
  - discriminate.
  - cbn [enumerate dict_lookup dict_values map snd scan_models identifies
         descriptor ModelConfig.id] in *.
    destruct (Z.eqb k start).
    + inversion Hlookup. reflexivity.
    + now apply IH.
Qed.

(** X17. On a table built by discovery, selecting by identifier is a
    lookup: for every key [k] of the table, [set_model_by_id(k)] returns
    with the descriptor stored under [k] selected and the client built
    from it. *)
Theorem select_by_identifier (k : Z) (model : ModelConfig.t) (w : World)
    (found : list (pyval * pyval * RemoteModel)) :
  config (self w) = enumerate 1 found ->
  dict_lookup k (config (self w)) = Some model ->
  set_model_by_id (ById k) w = (Return tt, selecting model w).
Proof.
  intros Hconfig Hlookup. unfold set_model_by_id, bind, get_self.
  rewrite Hconfig in *. now apply scan_enumerated.
Qed.

Lemma select_by_identifier_witness :
  set_model_by_id (ById 2) (Sample.ready "hello")
  = (Return tt,
     selecting (ModelConfig.mk "gpt-b" 2 "acme" Sample.url Sample.key)
               (Sample.ready "hello")).
Proof.
  apply (select_by_identifier 2
           (ModelConfig.mk "gpt-b" 2 "acme" Sample.url Sample.key)
           (Sample.ready "hello")
           [(Sample.key, Sample.url, Sample.gpt_a);
            (Sample.key, Sample.url, Sample.gpt_b)]);
    reflexivity.
Defined.

Lemma available_of_enumerated (found : list (pyval * pyval * RemoteModel)) :
  forall n,
    let l := map (fun model => (ModelConfig.name model, ModelConfig.id model,
                                ModelConfig.server model))
                 (dict_values (enumerate (Z.of_nat n) found)) in
    map (fun '(_, i, _) => i) l = map Z.of_nat (seq n (List.length found)) /\
    map (fun '(name, _, server) => (name, server)) l = listing_of found.
Proof.
  induction found as [| [[a b] m] found IH]; intros n; [now split |].
  cbn -[Z.of_nat]. specialize (IH (S n)).
  replace (Z.of_nat n + 1)%Z with (Z.of_nat (S n)) by lia.
  destruct IH as [IH1 IH2]. cbn -[Z.of_nat] in IH1, IH2.
  split; f_equal; assumption.
Qed.

(** X18. On a table built by discovery, [get_available_models] lists the
    models in discovery order, each with the backend's name and owner and
    with the identifiers 1..N, and changes nothing. *)
Theorem available_models_of_discovery (w : World)
    (found : list (pyval * pyval * RemoteModel)) :
  config (self w) = enumerate 1 found ->
  exists l,
    get_available_models w = (Return l, w) /\
    map (fun '(_, i, _) => i) l = map Z.of_nat (seq 1 (List.length found)) /\
    map (fun '(name, _, server) => (name, server)) l = listing_of found.
Proof.
  intros Hconfig. unfold get_available_models, bind, get_self, ret.
  rewrite Hconfig. eexists. split; [reflexivity |].
  apply (available_of_enumerated found 1).
Qed.

Lemma available_models_of_discovery_witness :
  exists l,
    get_available_models (Sample.ready "hello") = (Return l, Sample.ready "hello") /\
    map (fun '(_, i, _) => i) l = map Z.of_nat (seq 1 2) /\
    map (fun '(name, _, server) => (name, server)) l
    = listing_of [(Sample.key, Sample.url, Sample.gpt_a);
                  (Sample.key, Sample.url, Sample.gpt_b)].
Proof.
  apply (available_models_of_discovery (Sample.ready "hello")
           [(Sample.key, Sample.url, Sample.gpt_a);
            (Sample.key, Sample.url, Sample.gpt_b)]).
  reflexivity.
Defined.

(** ** Exchanges: errors and edge cases *)

(** X19. With no model selected, [chat] and [json_chat] raise
    [ValueError] at the call, before anything else: the transcript is not
    touched, nothing is printed and no request is sent. *)
Theorem exchange_without_model_raises (E : Externals) (message : string)
    (w : World) :
  selected_model (self w) = None ->
  chat E message w = (Raise (ValueError "No model selected"), w) /\
  json_chat E message w = (Raise (ValueError "No model selected"), w).
Proof.
  intros Hnone. unfold chat, json_chat, bind, get_self. rewrite Hnone.
  now split.
Qed.

Lemma exchange_without_model_raises_witness :
  chat (Sample.server "hello") "hi" Sample.blank
  = (Raise (ValueError "No model selected"), Sample.blank) /\
  json_chat (Sample.server "hello") "hi" Sample.blank
  = (Raise (ValueError "No model selected"), Sample.blank).
Proof.
  apply (exchange_without_model_raises (Sample.server "hello") "hi" Sample.blank).
  reflexivity.
Defined.

(** The run of [json_chat] once the backend has answered with a text. *)
Lemma json_chat_run (E : Externals) (message : string) (w : World)
    (model : ModelConfig.t) (c : Client)
    (answer : Answer (list (option string))) :
  selected_model (self w) = Some model ->
  client (self w) = Some c ->
  completions_create E (wire w) c (ModelConfig.name model)
    (conversation_history (self w) ++ [user message]) true
  = answer ->
  let sent := mkWorld (said [user message] (self w)) (stdout w)
                (wire w ++ [XCreate c (ModelConfig.name model)
                              (conversation_history (self w) ++ [user message])
                              true answer]) in
  json_chat E message w
  = match answer with
    | Ok (Some text :: _) =>
        let heard := mkWorld (said [user message; assistant (Some text)] (self w))
                       (stdout sent) (wire sent) in
        match json_loads E text with
        | Return value => (Return value, heard)
        | Raise e =>
            dispatch
              [ (is_JSONDecodeError, fun _ =>
                   print "错误：模型返回的内容无法解析为JSON" ;;;
                   ret (PyDict []));
                (is_Exception, fun e =>
                   print ("API 请求失败：" ++ str_exn e) ;;;
                   ret PyNone) ] e heard
        end
    | Ok (None :: _) =>
        (Return PyNone,
         mkWorld (said [user message; assistant None] (self w))
           (stdout w ++ [("API 请求失败："
                          ++ "the JSON object must be str, bytes or bytearray, not NoneType")%string])
           (wire sent))
    | Ok [] =>
        (Return PyNone,
         mkWorld (self sent)
           (stdout w ++ ["API 请求失败：list index out of range"%string])
           (wire sent))
    | Failed msg =>
        (Return PyNone,
         mkWorld (self sent) (stdout w ++ [("API 请求失败：" ++ msg)%string])
           (wire sent))
    end.
Proof.
  intros Hsel Hcl Hanswer sent.
  unfold json_chat, bind at 1, get_self. rewrite Hsel.
  unfold bind at 1. rewrite history_append_run.
  unfold try_except, bind at 1.
  rewrite (create_completion_run E true _ model c) by assumption.
  cbn [self stdout wire said set_history conversation_history].
  rewrite Hanswer. destruct answer as [[| [text |] others] | msg];
    try reflexivity.
  - unfold bind at 1. cbn [first_choice ret].
    unfold bind at 1. rewrite history_append_run. cbn [self stdout wire loads].
    rewrite said_said. cbn [app].
    destruct (json_loads E text); reflexivity.
  - unfold bind at 1. cbn [first_choice ret].
    unfold bind at 1. rewrite history_append_run. cbn [self stdout wire loads].
    rewrite said_said. reflexivity.
Qed.

(** X20. When the backend replies with a text that [json.loads]
    decodes, [json_chat] returns the decoded value, whatever it is; the
    request asked for a JSON object and carried the transcript with the
    user message; the transcript gains the user entry and an assistant
    entry with the raw text, and nothing is printed. *)
Theorem json_chat_returns_decoded (E : Externals) (message : string) (w : World)
    (model : ModelConfig.t) (c : Client)
    (text : string) (others : list (option string)) (value : pyval) :
  selected_model (self w) = Some model ->
  client (self w) = Some c ->
  completions_create E (wire w) c (ModelConfig.name model)
    (conversation_history (self w) ++ [user message]) true
  = Ok (Some text :: others) ->
  json_loads E text = Return value ->
  json_chat E message w
  = (Return value,
     mkWorld (said [user message; assistant (Some text)] (self w))
             (stdout w)
             (wire w ++ [XCreate c (ModelConfig.name model)
                           (conversation_history (self w) ++ [user message])
                           true (Ok (Some text :: others))])).
Proof.
  intros Hsel Hcl Hanswer Hloads.
  rewrite (json_chat_run E message w model c _ Hsel Hcl Hanswer).
  cbv zeta. now rewrite Hloads.
Qed.

Lemma json_chat_returns_decoded_witness :
  let E := Sample.server "{}" in
  let w := Sample.ready "hello" in
  json_chat E "hi" w
  = (Return (PyDict []),
     mkWorld (said [user "hi"; assistant (Some "{}")] (self w))
             (stdout w)
             (wire w ++ [XCreate (OpenAI Sample.key Sample.url) "gpt-a"
                           (conversation_history (self w) ++ [user "hi"])
                           true (Ok [Some "{}"])])).
Proof.
  apply (json_chat_returns_decoded (Sample.server "{}") "hi" (Sample.ready "hello")
           (ModelConfig.mk "gpt-a" 1 "acme" Sample.url Sample.key)
           (OpenAI Sample.key Sample.url) "{}" [] (PyDict []));
    reflexivity.
Defined.





(** X25. With a model selected, [json_chat] never raises, provided
    [json.loads] itself only raises exceptions (subclasses of
    [Exception]): every failure of the backend or of the decoding is
    caught and turned into a returned value. *)
Theorem json_chat_returns (E : Externals) (message : string) (w : World)
    (model : ModelConfig.t) :
  selected_model (self w) = Some model ->
  (forall text e, json_loads E text = Raise e -> is_Exception e = true) ->
  exists r w', json_chat E message w = (Return r, w').
Proof.
  intros Hsel Hloads.
  destruct (client (self w)) as [c |] eqn:Hcl.
  - rewrite (json_chat_run E message w model c _ Hsel Hcl eq_refl).
    destruct (completions_create _ _ _ _ _ _) as [[| [text |] others] | msg];
      try (do 2 eexists; reflexivity).
    cbv zeta. destruct (json_loads E text) as [value | e] eqn:Htext;
      [do 2 eexists; reflexivity |].
    cbn [dispatch]. destruct (is_JSONDecodeError e);
      [do 2 eexists; reflexivity |].
    rewrite (Hloads text e Htext). do 2 eexists; reflexivity.
  - unfold json_chat, bind at 1, get_self. rewrite Hsel.
    unfold bind at 1. rewrite history_append_run.
    unfold try_except, bind at 1, create_completion, bind at 1, get_self.
    cbn [self said set_history client]. rewrite Hcl.
    do 2 eexists. reflexivity.
Qed.

Lemma json_chat_returns_witness :
  exists r w',
    json_chat Sample.down "hi" (Sample.ready "hello") = (Return r, w').
Proof.
  apply (json_chat_returns Sample.down "hi" (Sample.ready "hello")
           (ModelConfig.mk "gpt-a" 1 "acme" Sample.url Sample.key)).
  - reflexivity.
  - intros text e. cbn. unfold Sample.decoder.
    destruct (String.eqb text "{}"); [discriminate |].
    destruct (String.eqb text "[1]"); [discriminate |].
    intros H. inversion H. reflexivity.
Defined.

(** ** Streaming: failures and resumption *)

(** X26. With a model selected, a request for the next element of a
    stream never raises an error into the consumer's loop: it yields a
    fragment or ends the iteration ([StopIteration]), whatever the state
    of the generator and whatever the backend does. *)
Theorem stream_never_raises (E : Externals) (g : Generator) (w : World)
    (model : ModelConfig.t) :
  selected_model (self w) = Some model ->
  fst (fst (next E g w)) = Raise StopIteration \/
  exists fragment, fst (fst (next E g w)) = Return fragment.
Proof.
  intros Hsel.
  assert (Hresume : forall rest w0,
             fst (fst (next E (GenSuspended rest) w0)) = Raise StopIteration \/
             exists fragment,
               fst (fst (next E (GenSuspended rest) w0)) = Return fragment).
  { intros [| [[| fragment choices] | msg] rest] w0; cbn; eauto. }
  destruct g as [message | rest |].
  - destruct (client (self w)) as [c |] eqn:Hcl.
    + rewrite (next_created E message w model c Hsel Hcl).
      destruct (completions_stream _ _ _ _ _); [apply Hresume | now left].
    + left. cbn [next]. unfold stream_chat_start, bind at 1, get_self.
      rewrite Hsel. unfold bind at 1. rewrite history_append_run.
      unfold in_stream_try, try_except, bind at 1, create_stream, bind at 1,
        get_self.
      cbn [self said set_history client]. rewrite Hcl. reflexivity.
  - apply Hresume.
  - now left.
Qed.

Lemma stream_never_raises_witness :
  fst (fst (next Sample.down (GenCreated "hi") (Sample.ready "hello")))
  = Raise StopIteration \/
  exists fragment,
    fst (fst (next Sample.down (GenCreated "hi") (Sample.ready "hello")))
    = Return fragment.
Proof.
  apply (stream_never_raises Sample.down (GenCreated "hi") (Sample.ready "hello")
           (ModelConfig.mk "gpt-a" 1 "acme" Sample.url Sample.key)).
  reflexivity.
Defined.

(** X27. When the streaming request fails to start, consuming the
    generator yields no element and ends normally: the failure is printed
    once, and the user message appended at the first request stays in the
    transcript. *)
Theorem stream_that_fails_to_start (E : Externals) (message : string)
    (w : World) (model : ModelConfig.t) (c : Client) (msg : string)
    (fuel : nat) :
  selected_model (self w) = Some model ->
  client (self w) = Some c ->
  completions_stream E (wire w) c (ModelConfig.name model)
    (conversation_history (self w) ++ [user message])
  = Failed msg ->
  drain E (S fuel) (GenCreated message) w
  = Some ([], None,
          mkWorld (said [user message] (self w))
                  (stdout w ++ [("API 请求失败：" ++ msg)%string])
                  (wire w ++ [XStream c (ModelConfig.name model)
                                (conversation_history (self w) ++ [user message])
                                (Failed msg)])).
Proof.
  intros Hsel Hcl Hanswer. cbn [drain].
  rewrite (next_created E message w model c Hsel Hcl). cbv zeta.
  rewrite Hanswer. reflexivity.
Qed.

Lemma stream_that_fails_to_start_witness :
  let w := Sample.ready "hello" in
  drain Sample.down 1 (GenCreated "hi") w
  = Some ([], None,
          mkWorld (said [user "hi"] (self w))
                  (stdout w ++ [("API 请求失败：" ++ "Connection error.")%string])
                  (wire w ++ [XStream (OpenAI Sample.key Sample.url) "gpt-a"
                                (conversation_history (self w) ++ [user "hi"])
                                (Failed "Connection error.")])).
Proof.
  apply (stream_that_fails_to_start Sample.down "hi" (Sample.ready "hello")
           (ModelConfig.mk "gpt-a" 1 "acme" Sample.url Sample.key)
           (OpenAI Sample.key Sample.url) "Connection error." 0);
    reflexivity.
Defined.

Lemma fragments_before_fault (good : list (option string * list (option string)))
    (msg : string) (rest : list StreamEvent) :
  fragments (chunks good ++ EvFault msg :: rest) = map fst good /\
  stream_report (chunks good ++ EvFault msg :: rest)
  = [("API 请求失败：" ++ msg)%string].
Proof.
  unfold chunks.
  induction good as [| [fragment others] good [IH1 IH2]]; [now split |].
  cbn [map app fragments delta stream_report fst]. now rewrite IH1, IH2.
Qed.

(** X28. A stream that breaks after some chunks yields exactly the
    fragments of the chunks before the break, in order, and then ends
    normally: the failure is printed, what the backend would have sent
    after it is lost, and the transcript holds the user message as its
    only new entry. *)
Theorem broken_stream_yields_its_prefix (E : Externals) (message : string)
    (w : World) (model : ModelConfig.t) (c : Client)
    (good : list (option string * list (option string)))
    (msg : string) (rest : list StreamEvent) (fuel : nat) :
  selected_model (self w) = Some model ->
  client (self w) = Some c ->
  completions_stream E (wire w) c (ModelConfig.name model)
    (conversation_history (self w) ++ [user message])
  = Ok (chunks good ++ EvFault msg :: rest) ->
  (List.length good < fuel)%nat ->
  exists w',
    drain E fuel (GenCreated message) w = Some (map fst good, None, w') /\
    stdout w' = stdout w ++ [("API 请求失败：" ++ msg)%string] /\
    conversation_history (self w')
    = conversation_history (self w) ++ [user message].
Proof.
  intros Hsel Hcl Hanswer Hfuel.
  destruct (fragments_before_fault good msg rest) as [Hfragments Hreport].
  destruct fuel as [| fuel]; [lia |].
  assert (Hstart : drain E (S fuel) (GenCreated message) w
                   = drain E (S fuel)
                       (GenSuspended (chunks good ++ EvFault msg :: rest))
                       (mkWorld (said [user message] (self w)) (stdout w)
                          (wire w ++ [XStream c (ModelConfig.name model)
                                        (conversation_history (self w) ++ [user message])
                                        (Ok (chunks good ++ EvFault msg :: rest))]))).
  { cbn [drain]. rewrite (next_created E message w model c Hsel Hcl).
    cbv zeta. rewrite Hanswer. reflexivity. }
  rewrite Hstart, drain_suspended.
  - rewrite Hfragments, Hreport. eexists. split; [reflexivity |]. now split.
  - rewrite Hfragments, length_map. exact Hfuel.
Qed.

Lemma broken_stream_yields_its_prefix_witness :
  let w := Sample.ready "hello" in
  exists w',
    drain Scenario.usual 2 (GenCreated "hi") w
    = Some (map fst [(Some "he", @nil (option string))], None, w') /\
    stdout w' = stdout w ++ [("API 请求失败：" ++ "Connection reset.")%string] /\
    conversation_history (self w')
    = conversation_history (self w) ++ [user "hi"].
Proof.
  apply (broken_stream_yields_its_prefix Scenario.usual "hi" (Sample.ready "hello")
           (ModelConfig.mk "gpt-a" 1 "acme" Sample.url Sample.key)
           (OpenAI Sample.key Sample.url)
           [(Some "he", @nil (option string))] "Connection reset."
           [EvChunk [Some "llo"]] 2);
    (reflexivity || (cbn; lia)).
Defined.

(** X29. Requesting a further element from a generator suspended at its
    [yield] contacts nobody and changes no attribute: only the first
    request sends to the backend, and streaming never appends the
    assistant's reply to the transcript. *)
Theorem resuming_contacts_nobody (E : Externals) (rest : list StreamEvent)
    (w : World) :
  self (snd (next E (GenSuspended rest) w)) = self w /\
  wire (snd (next E (GenSuspended rest) w)) = wire w.
Proof.
  destruct rest as [| [[| fragment choices] | msg] rest]; now split.
Qed.

(** ** Starting over *)

(** The run of [chat] once a client and a model are in place. *)
Lemma chat_run (E : Externals) (message : string) (w : World)
    (model : ModelConfig.t) (c : Client) :
  selected_model (self w) = Some model ->
  client (self w) = Some c ->
  let answer := completions_create E (wire w) c (ModelConfig.name model)
                  (conversation_history (self w) ++ [user message]) false in
  let sent := wire w ++ [XCreate c (ModelConfig.name model)
                           (conversation_history (self w) ++ [user message])
                           false answer] in
  chat E message w
  = match answer with
    | Ok (reply :: _) =>
        (Return reply,
         mkWorld (said [user message; assistant reply] (self w)) (stdout w) sent)
    | Ok [] =>
        (Return None,
         mkWorld (said [user message] (self w))
           (stdout w ++ ["API 请求失败：list index out of range"%string]) sent)
    | Failed msg =>
        (Return None,
         mkWorld (said [user message] (self w))
           (stdout w ++ [("API 请求失败：" ++ msg)%string]) sent)
    end.
Proof.
  intros Hsel Hcl answer sent.
  unfold chat, bind at 1, get_self. rewrite Hsel.
  unfold bind at 1. rewrite history_append_run.
  unfold try_except, bind at 1.
  rewrite (create_completion_run E false _ model c) by assumption.
  cbn [self stdout wire said set_history conversation_history].
  fold answer. fold sent.
  destruct answer as [[| reply others] | msg]; try reflexivity.
  unfold bind at 1. cbn [first_choice ret].
  unfold bind. rewrite history_append_run. cbn [self stdout wire ret].
  now rewrite said_said.
Qed.

(** X24. After [chat_cleanup] and [set_system_prompt], the next [chat]
    sends the backend the system prompt and the new user message and
    nothing of the earlier conversation; on success the transcript is
    exactly system prompt, user message, assistant reply.  The selected
    model and the client are the ones from before the cleanup. *)
Theorem fresh_start_forgets_the_past (E : Externals) (content message : string)
    (w : World) (model : ModelConfig.t) (c : Client)
    (reply : option string) (others : list (option string)) :
  selected_model (self w) = Some model ->
  client (self w) = Some c ->
  completions_create E (wire w) c (ModelConfig.name model)
    [mkMessage "system" (Some content); user message] false
  = Ok (reply :: others) ->
  (chat_cleanup ;;; set_system_prompt content ;;; chat E message) w
  = (Return reply,
     mkWorld (set_history [mkMessage "system" (Some content); user message;
                           assistant reply] (self w))
             (stdout w)
             (wire w ++ [XCreate c (ModelConfig.name model)
                           [mkMessage "system" (Some content); user message]
                           false (Ok (reply :: others))])).
Proof.
  intros Hsel Hcl Hanswer.
  unfold bind at 1, chat_cleanup, modify_self.
  unfold bind at 1, set_system_prompt. rewrite history_append_run.
  rewrite (chat_run E message _ model c) by assumption.
  cbn [self stdout wire said set_history conversation_history app].
  rewrite Hanswer. reflexivity.
Qed.

Lemma fresh_start_forgets_the_past_witness :
  let E := Sample.server "hello" in
  let w := snd (chat E "earlier" (Sample.ready "hello")) in
  (chat_cleanup ;;; set_system_prompt "You are a cat." ;;; chat E "hi") w
  = (Return (Some "hello"),
     mkWorld (set_history [mkMessage "system" (Some "You are a cat."); user "hi";
                           assistant (Some "hello")] (self w))
             (stdout w)
             (wire w ++ [XCreate (OpenAI Sample.key Sample.url) "gpt-a"
                           [mkMessage "system" (Some "You are a cat."); user "hi"]
                           false (Ok [Some "hello"])])).
Proof.
  apply (fresh_start_forgets_the_past (Sample.server "hello") "You are a cat." "hi"
           (snd (chat (Sample.server "hello") "earlier" (Sample.ready "hello")))
           (ModelConfig.mk "gpt-a" 1 "acme" Sample.url Sample.key)
           (OpenAI Sample.key Sample.url) (Some "hello") []);
    reflexivity.
Defined.
